(** * Fan speed monitor: the observation pipeline of
      scripts/fan_control/fan_speed_monitor.py

    A shallow embedding of class [TrueNASSensor]: the three sensor readers
    ([get_drive_temperatures], [get_cpu_temperature], [get_fan_status]) and
    [log_status], together with the Python built-ins they rest on
    ([str.split], [in], [str.strip], [int], [float], [re.search], [dict]).

    Conventions.
    - A Python [str] is the list of its Unicode code points.
    - A Python [float] is an IEEE binary64 value ([spec_float] at precision
      53 and maximal exponent 1024), a Python [int] is a [Z].
    - A [dict] is an association list in insertion order without repeated
      keys.
    - A call that may raise returns a [result]; the code of [log_status],
      which prints and writes a file, threads a [world].
    - What the process meets outside itself is an argument: the outcome of
      each external tool, the clock, and how the append to the log file
      ends.
    - What belongs to the interpreter and not to the repository is a
      parameter: the decimal digits of Unicode outside ASCII, the limit on
      the digits of an integer literal, and [json.dumps]. *)

From Stdlib Require Import String Ascii.
From Stdlib Require Import List NArith ZArith Bool Lia.
From Stdlib Require Import Permutation Sorted.
From Stdlib Require Import Floats.SpecFloat.
Import ListNotations.

Set Implicit Arguments.
Local Open Scope N_scope.

(* ------------------------------------------------------------------ *)
(** ** Text *)

Definition char := N.
Definition str := list char.

(** An ASCII literal of the source as a [str]. *)
Definition lit (s : string) : str := map N_of_ascii (list_ascii_of_string s).

(** The one non-ASCII character of the source, U+00B0. *)
Definition degree_sign : char := 176.

Fixpoint str_eqb (a b : str) : bool :=
  match a, b with
  | [], [] => true
  | x :: a', y :: b' => (x =? y) && str_eqb a' b'
  | _, _ => false
  end.

Fixpoint starts_with (p s : str) : bool :=
  match p, s with
  | [], _ => true
  | x :: p', y :: s' => (x =? y) && starts_with p' s'
  | _ :: _, [] => false
  end.

(** [sub in s]. *)
Fixpoint contains (sub s : str) : bool :=
  starts_with sub s ||
  match s with
  | [] => false
  | _ :: t => contains sub t
  end.

(** [s.split(sep)] for a one-character separator, the only kind the source
    uses (newline, hyphen, plus, degree sign). *)
Fixpoint split (sep : char) (s : str) : list str :=
  match s with
  | [] => [[]]
  | c :: t =>
      if c =? sep then [] :: split sep t
      else match split sep t with
           | [] => [[c]]
           | p :: ps => (c :: p) :: ps
           end
  end.

(** [Py_UNICODE_ISSPACE], the white space of [str.strip]. *)
Definition Py_UNICODE_ISSPACE (c : char) : bool :=
  ((9 <=? c) && (c <=? 13)) || ((28 <=? c) && (c <=? 32)) ||
  (c =? 133) || (c =? 160) || (c =? 5760) ||
  ((8192 <=? c) && (c <=? 8202)) ||
  (c =? 8232) || (c =? 8233) || (c =? 8239) || (c =? 8287) || (c =? 12288).

(** [Py_ISSPACE], the ASCII white space that [int] and [float] skip. *)
Definition Py_ISSPACE (c : char) : bool :=
  ((9 <=? c) && (c <=? 13)) || (c =? 32).

Fixpoint lstrip (space : char -> bool) (s : str) : str :=
  match s with
  | c :: t => if space c then lstrip space t else s
  | [] => []
  end.

Definition rstrip (space : char -> bool) (s : str) : str :=
  rev (lstrip space (rev s)).

(** [s.strip()]. *)
Definition strip (s : str) : str :=
  rstrip Py_UNICODE_ISSPACE (lstrip Py_UNICODE_ISSPACE s).

(* ------------------------------------------------------------------ *)
(** ** Exceptions *)

Inductive os_error := ENOENT | EACCES | ENOSPC | EIO.

(** [OSError k] stands for the subclass of [OSError] (alias [IOError]) that
    the interpreter raises for errno [k]: [FileNotFoundError] is
    [OSError ENOENT], [PermissionError] is [OSError EACCES]. *)
Inductive exn :=
| TimeoutExpired
| OSError (k : os_error)
| UnboundLocalError
| IndexError
| ValueError
| OverflowError.

Definition FileNotFoundError : exn := OSError ENOENT.

Inductive result (A : Type) :=
| Return (a : A)
| Raise (e : exn).
Arguments Raise {A} e.

Definition bind {A B} (m : result A) (k : A -> result B) : result B :=
  match m with
  | Return a => k a
  | Raise e => Raise e
  end.

(** [try: m  except <classes>: h]; [handles e] tells whether the exception
    is an instance of one of the listed classes. *)
Definition try_except {A} (m : result A) (handles : exn -> bool)
    (h : exn -> result A) : result A :=
  match m with
  | Return a => Return a
  | Raise e => if handles e then h e else Raise e
  end.

Declare Scope py_scope.
Delimit Scope py_scope with py.
Notation "x <- m ;; k" := (bind m (fun x => k))
  (at level 61, m at next level, right associativity) : py_scope.
Local Open Scope py_scope.

(* ------------------------------------------------------------------ *)
(** ** Numbers *)

Definition float := spec_float.

Definition prec : Z := 53.
Definition emax : Z := 1024.

(** The double nearest to an integer (ties to even), infinite when the
    integer is out of range. *)
Definition float_of_Z (n : Z) : float := binary_normalize prec emax n 0 false.

(** The double nearest to [m * 10^e] (ties to even), as the interpreter's
    correctly rounded string conversion computes it. *)
Definition float_of_decimal (neg : bool) (m : N) (e : Z) : float :=
  match m with
  | N0 => S754_zero neg
  | Npos p =>
      match e with
      | Zneg k => SFdiv prec emax (S754_finite neg p 0)
                    (S754_finite false (Pos.pow 10 k) 0)
      | Z0 => binary_round prec emax neg p 0
      | Zpos k => binary_round prec emax neg (p * Pos.pow 10 k) 0
      end
  end.

(** [PyLong_AsDouble]. *)
Definition int_to_float (n : Z) : result float :=
  match float_of_Z n with
  | S754_infinity _ => Raise OverflowError
  | f => Return f
  end.

(** [n / d] for an [int] [n] and a non-zero [float] [d]. *)
Definition int_truediv_float (n : Z) (d : float) : result float :=
  x <- int_to_float n ;;
  Return (SFdiv prec emax x d).

(* ------------------------------------------------------------------ *)
(** ** Dictionaries *)

Section Dict.
Variable V : Type.

Definition dict := list (str * V).

(** [d[k] = v]: an existing key keeps its place. *)
Fixpoint dict_set (k : str) (v : V) (d : dict) : dict :=
  match d with
  | [] => [(k, v)]
  | (k', v') :: r =>
      if str_eqb k k' then (k', v) :: r else (k', v') :: dict_set k v r
  end.

Fixpoint dict_get (k : str) (d : dict) : option V :=
  match d with
  | [] => None
  | (k', v') :: r => if str_eqb k k' then Some v' else dict_get k r
  end.

(** [k in d]. *)
Definition dict_mem (k : str) (d : dict) : bool :=
  match dict_get k d with
  | Some _ => true
  | None => false
  end.

Definition keys (d : dict) : list str := map fst d.

(** [bool(d)]. *)
Definition dict_truthy (d : dict) : bool :=
  match d with
  | [] => false
  | _ :: _ => true
  end.
End Dict.

(** [a < b] on [str]: lexicographic on code points. *)
Fixpoint str_ltb (a b : str) : bool :=
  match a, b with
  | [], [] => false
  | [], _ :: _ => true
  | _ :: _, [] => false
  | x :: a', y :: b' => (x <? y) || ((x =? y) && str_ltb a' b')
  end.

Fixpoint insert_item {V} (x : str * V) (l : list (str * V)) : list (str * V) :=
  match l with
  | [] => [x]
  | y :: r => if str_ltb (fst y) (fst x) then y :: insert_item x r else x :: l
  end.

(** [sorted(d.items())]: the keys of a [dict] are distinct, so the order of
    the pairs is the order of their keys. *)
Definition sorted_items {V} (d : dict V) : list (str * V) :=
  fold_right insert_item [] d.

(* ------------------------------------------------------------------ *)
(** ** Built-ins that depend on the interpreter *)

Section Interpreter.

(** The decimal-digit property of the Unicode database for the characters
    outside ASCII ([Some d] for a character of category Nd with value [d]);
    the table belongs to the interpreter, not to the repository. In the
    database a decimal value is below ten and no white-space character is
    a digit: an entry that says otherwise is not read. *)
Variable unicode_decimal : char -> option N.

(** [sys.get_int_max_str_digits()]: [0] when the interpreter has no limit,
    otherwise at least 640. *)
Variable int_max_str_digits : N.

Definition is_ascii_digit (c : char) : bool := (48 <=? c) && (c <=? 57).

(** [Py_UNICODE_TODECIMAL]. *)
Definition Py_UNICODE_TODECIMAL (c : char) : option N :=
  if is_ascii_digit c then Some (c - 48)
  else if (c <? 128) || Py_UNICODE_ISSPACE c then None
  else match unicode_decimal c with
       | Some d => if d <? 10 then Some d else None
       | None => None
       end.

Definition is_decimal (c : char) : bool :=
  match Py_UNICODE_TODECIMAL c with
  | Some _ => true
  | None => false
  end.

(** [_PyUnicode_TransformDecimalAndSpaceToASCII]: what [int] and [float]
    parse. A character that is neither ASCII, white space nor a decimal
    digit becomes a question mark and ends the text; so does U+007F here,
    which the interpreter keeps in a text that is all ASCII, and which
    neither parser accepts any more than the question mark. *)
Fixpoint to_ascii (s : str) : str :=
  match s with
  | [] => []
  | c :: t =>
      if c <? 127 then c :: to_ascii t
      else if Py_UNICODE_ISSPACE c then 32 :: to_ascii t
      else match Py_UNICODE_TODECIMAL c with
           | Some d => (48 + d) :: to_ascii t
           | None => [63]
           end
  end.

(** The rest of [digit (["_"] digit)*] after its first digit: the values
    of the digits read and the text left. *)
Fixpoint digitpart_rest (s : str) : list N * str :=
  match s with
  | [] => ([], [])
  | c :: t =>
      if is_ascii_digit c then
        let (ds, r) := digitpart_rest t in ((c - 48) :: ds, r)
      else if c =? 95 then
        match t with
        | d :: t' =>
            if is_ascii_digit d then
              let (ds, r) := digitpart_rest t' in ((d - 48) :: ds, r)
            else ([], s)
        | [] => ([], s)
        end
      else ([], s)
  end.

Definition digitpart (s : str) : option (list N * str) :=
  match s with
  | c :: t =>
      if is_ascii_digit c then
        let (ds, r) := digitpart_rest t in Some ((c - 48) :: ds, r)
      else None
  | [] => None
  end.

Definition digits_value (ds : list N) : N :=
  fold_left (fun a d => 10 * a + d) ds 0.

(** An optional sign: whether it is a minus, and the text after it. *)
Definition sign (s : str) : bool * str :=
  match s with
  | c :: t => if c =? 45 then (true, t)
              else if c =? 43 then (false, t) else (false, s)
  | [] => (false, s)
  end.

Definition too_many_digits (n : nat) : bool :=
  if int_max_str_digits =? 0 then false
  else N.max 640 int_max_str_digits <? N.of_nat n.

(** [int(s)] for a [str], base 10. *)
Definition py_int (s : str) : result Z :=
  let (neg, body) := sign (lstrip Py_ISSPACE (to_ascii s)) in
  match digitpart body with
  | None => Raise ValueError
  | Some (ds, r) =>
      match lstrip Py_ISSPACE r with
      | [] =>
          if too_many_digits (length ds) then Raise ValueError
          else
            let n := Z.of_N (digits_value ds) in
            Return (if neg then (- n)%Z else n)
      | _ :: _ => Raise ValueError
      end
  end.

Definition lower (c : char) : char :=
  if (65 <=? c) && (c <=? 90) then c + 32 else c.

(** [[digitpart] "." digitpart | digitpart ["."]]: the digits before and
    after the point, and the text left. *)
Definition number (s : str) : option (list N * list N * str) :=
  match digitpart s with
  | Some (ip, r) =>
      match r with
      | c :: r' =>
          if c =? 46 then
            match digitpart r' with
            | Some (fp, r'') => Some (ip, fp, r'')
            | None => Some (ip, [], r')
            end
          else Some (ip, [], r)
      | [] => Some (ip, [], [])
      end
  | None =>
      match s with
      | c :: r' =>
          if c =? 46 then
            match digitpart r' with
            | Some (fp, r'') => Some ([], fp, r'')
            | None => None
            end
          else None
      | [] => None
      end
  end.

(** [("e" | "E") [sign] digitpart], when the text goes on after the
    number. *)
Definition exponent (s : str) : option Z :=
  match s with
  | [] => Some 0%Z
  | c :: t =>
      if lower c =? 101 then
        let (neg, body) := sign t in
        match digitpart body with
        | Some (ds, []) =>
            let n := Z.of_N (digits_value ds) in
            Some (if neg then (- n)%Z else n)
        | _ => None
        end
      else None
  end.

(** [float(s)] for a [str]. *)
Definition py_float (s : str) : result float :=
  let (neg, body) :=
    sign (rstrip Py_ISSPACE (lstrip Py_ISSPACE (to_ascii s))) in
  let word := map lower body in
  if str_eqb word (lit "inf") || str_eqb word (lit "infinity") then
    Return (S754_infinity neg)
  else if str_eqb word (lit "nan") then Return S754_nan
  else
    match number body with
    | Some (ip, fp, r) =>
        match exponent r with
        | Some e =>
            Return (float_of_decimal neg (digits_value (ip ++ fp))
                      (e - Z.of_nat (length fp)))
        | None => Raise ValueError
        end
    | None => Raise ValueError
    end.

(** The longest run of decimal digits at the head of [s], cut at [n]. *)
Fixpoint take_digits (n : nat) (s : str) : str :=
  match n, s with
  | S k, c :: t => if is_decimal c then c :: take_digits k t else []
  | _, _ => []
  end.

(** [re.search(r'(\d{3,5})', s)]: group 1 of the leftmost match, which is
    greedy. *)
Fixpoint re_search_digits (s : str) : option str :=
  match s with
  | [] => None
  | _ :: t =>
      let g := take_digits 5 s in
      if (3 <=? length g)%nat then Some g else re_search_digits t
  end.

End Interpreter.

(* ------------------------------------------------------------------ *)
(** ** The world of one process: files and console *)

(** [subprocess.run(..., capture_output=True, text=True, timeout=5)]: the
    tool ran and wrote [stdout] (whatever its exit status, which is not
    looked at), or it ran out of time, or its binary is not on the
    system. The other ways in which the call can end, such as a binary
    that may not be executed or output that does not decode, are not among
    the outcomes: what is proved of a reader is proved for these three. *)
Inductive run_outcome :=
| Completed (stdout : str)
| TimedOut
| NotFound.

Definition subprocess_run (o : run_outcome) : result str :=
  match o with
  | Completed stdout => Return stdout
  | TimedOut => Raise TimeoutExpired
  | NotFound => Raise FileNotFoundError
  end.

(** A [pathlib.Path] [parent / name]. *)
Record path := { parent : str; name : str }.

Definition path_eqb (p q : path) : bool :=
  str_eqb (parent p) (parent q) && str_eqb (name p) (name q).

(** What the program prints; the text of a line is kept as its parts. *)
Inductive message :=
| RuleAfterBlank
| Title (timestamp : str)
| Rule
| DriveHeading
| DriveLine (device_id : str) (temp : float)
| CpuLine (temp : float)
| FanHeading
| FanLine (fan_name : str) (rpm : Z)
| FanUnavailable
| DriveReadError (e : exn)
| LogWriteWarning (e : exn).

Inductive output :=
| Stdout (m : message)
| Stderr (m : message).

Record world := {
  files : path -> option str;
  console : list output
}.

Definition M (A : Type) : Type := world -> result A * world.

Definition ret {A} (a : A) : M A := fun w => (Return a, w).

Definition lift {A} (r : result A) : M A := fun w => (r, w).

Definition bindM {A B} (m : M A) (k : A -> M B) : M B :=
  fun w =>
    match m w with
    | (Return a, w') => k a w'
    | (Raise e, w') => (Raise e, w')
    end.

Definition try_exceptM {A} (m : M A) (handles : exn -> bool)
    (h : exn -> M A) : M A :=
  fun w =>
    match m w with
    | (Return a, w') => (Return a, w')
    | (Raise e, w') => if handles e then h e w' else (Raise e, w')
    end.

Notation "x <~ m ;; k" := (bindM m (fun x => k))
  (at level 61, m at next level, right associativity) : py_scope.
Notation "m ;;; k" := (bindM m (fun _ => k))
  (at level 61, right associativity) : py_scope.

(** [print(...)]: the line is added to the console; writing to the console
    is taken to succeed. *)
Definition print (o : output) : M unit :=
  fun w => (Return tt, {| files := files w; console := console w ++ [o] |}).

Definition when (b : bool) (m : M unit) : M unit :=
  if b then m else ret tt.

Fixpoint for_each {A S} (f : S -> A -> result S) (l : list A) (s : S)
    : result S :=
  match l with
  | [] => Return s
  | x :: r => s' <- f s x ;; for_each f r s'
  end.

Fixpoint for_eachM {A} (f : A -> M unit) (l : list A) : M unit :=
  match l with
  | [] => ret tt
  | x :: r => f x ;;; for_eachM f r
  end.

(** The content of a file, empty when the file does not exist. *)
Definition content (w : world) (p : path) : str :=
  match files w p with
  | Some c => c
  | None => []
  end.

Definition append_to (p : path) (data : str) (w : world) : world :=
  {| files := fun q => if path_eqb q p then Some (content w p ++ data)
                       else files w q;
     console := console w |}.

(** How [open(p, 'a')] followed by one [write] ends: the data is in the
    file; or [open] failed; or the file was opened and the write failed
    after [written] characters. *)
Inductive append_outcome :=
| Appended
| OpenFailed (k : os_error)
| WriteFailed (k : os_error) (written : nat).

Definition open_append_write (p : path) (data : str) (o : append_outcome)
    : M unit :=
  fun w =>
    match o with
    | Appended => (Return tt, append_to p data w)
    | OpenFailed k => (Raise (OSError k), w)
    | WriteFailed k written =>
        (Raise (OSError k), append_to p (firstn written data) w)
    end.

(** A [datetime]. *)
Record datetime := {
  year : N; month : N; day : N;
  hour : N; minute : N; second : N; microsecond : N
}.

Definition digit (n : N) : char := 48 + n mod 10.
Definition pad2 (n : N) : str := [digit (n / 10); digit n].
Definition pad4 (n : N) : str :=
  [digit (n / 1000); digit (n / 100); digit (n / 10); digit n].
Definition pad6 (n : N) : str :=
  [digit (n / 100000); digit (n / 10000); digit (n / 1000);
   digit (n / 100); digit (n / 10); digit n].

(** [t.strftime('%Y%m%d')], for a year of four digits, as every year of
    [datetime.now()] is. *)
Definition strftime_Ymd (t : datetime) : str :=
  pad4 (year t) ++ pad2 (month t) ++ pad2 (day t).

(** [t.isoformat()]. *)
Definition isoformat (t : datetime) : str :=
  pad4 (year t) ++ lit "-" ++ pad2 (month t) ++ lit "-" ++ pad2 (day t) ++
  lit "T" ++ pad2 (hour t) ++ lit ":" ++ pad2 (minute t) ++ lit ":" ++
  pad2 (second t) ++
  (if microsecond t =? 0 then [] else lit "." ++ pad6 (microsecond t)).

(* ------------------------------------------------------------------ *)
(** ** class TrueNASSensor *)

Record status := {
  timestamp : str;
  drive_temps : dict (option float);
  cpu_temp : option float;
  fan_status : option (dict Z)
}.

Record TrueNASSensor := { log_dir : str; log_file : path }.

(** [__init__(self, log_dir)]: [now] is what [datetime.now()] returns and
    [mkdir] how [self.log_dir.mkdir(parents=True, exist_ok=True)] ends. *)
Definition __init__ (log_dir : str) (now : datetime) (mkdir : option os_error)
    : result TrueNASSensor :=
  match mkdir with
  | Some k => Raise (OSError k)
  | None =>
      Return {| log_dir := log_dir;
                log_file := {| parent := log_dir;
                               name := lit "fan_monitor_" ++ strftime_Ymd now
                                       ++ lit ".log" |} |}
  end.

(** The locals of the loop of [get_drive_temperatures]; [device_id] is
    [None] as long as the name is unbound. *)
Record drive_scan := {
  temps : dict (option float);
  device_id : option str
}.

Definition fan_names : list str :=
  [lit "FAN1"; lit "FAN2"; lit "FAN3"; lit "FAN4"; lit "FANA"; lit "FANB"].

(** What one poll meets outside the process. *)
Record poll := {
  now : datetime;
  sensors_u : run_outcome;
  thermal_zone : run_outcome;
  ipmitool_sdr : run_outcome;
  log_append : append_outcome
}.

(** One interpreter and one serialiser, for the closed examples: no decimal
    digits outside ASCII, the default digit limit, and a serialiser that
    writes the time stamp only. *)
Definition ascii_digits_only : char -> option N := fun _ => None.
Definition default_max_str_digits : N := 4300.
Definition timestamp_dumps (st : status) : str := timestamp st.

Definition empty_world : world := {| files := fun _ => None; console := [] |}.

(** A sensor object constructed in the last second of 2023 and a poll two
    seconds later, on the first of January, in which no tool prints a
    line. *)
Definition sample_dir : str := lit "/var/log/fan_control".

Definition new_years_eve : datetime :=
  {| year := 2023; month := 12; day := 31;
     hour := 23; minute := 59; second := 59; microsecond := 0 |}.

Definition eve_sensor : TrueNASSensor :=
  {| log_dir := sample_dir;
     log_file := {| parent := sample_dir;
                    name := lit "fan_monitor_20231231.log" |} |}.

Definition new_year_poll (a : append_outcome) : poll :=
  {| now := {| year := 2024; month := 1; day := 1;
               hour := 0; minute := 0; second := 1; microsecond := 0 |};
     sensors_u := Completed [];
     thermal_zone := Completed [];
     ipmitool_sdr := Completed [];
     log_append := a |}.

Definition new_year_status : status :=
  {| timestamp := lit "2024-01-01T00:00:01";
     drive_temps := []; cpu_temp := None; fan_status := None |}.

(** A sensor data record dump without a fan, and one in which FAN1 comes
    twice. *)
Definition sdr_without_fans : str :=
  lit "CPU Temp         | 45 degrees C      | ok".

Definition sdr_fan1_twice : str :=
  lit "FAN1             | 1200 RPM          | ok" ++ [10] ++
  lit "FAN1             | 1500 RPM          | ok".

(** Dumps of the drive sensors for the closed examples: a drive whose
    block is followed by the block of another chip; a drive followed by a
    line with [temp1:] and no number, and the same without that line; a
    header that ends in a hyphen. *)
Definition header_f0 : str := lit "drivetemp-scsi-0-f0".

Definition value_41 : str := lit "temp1:        +41.0" ++ [degree_sign] ++ lit "C".

Definition value_27_8 : str := lit "temp1:        +27.8" ++ [degree_sign] ++ lit "C".

Definition drive_then_acpitz : str :=
  header_f0 ++ [10] ++ value_41 ++ [10] ++
  lit "acpitz-acpi-0" ++ [10] ++ value_27_8.

Definition drive_then_bare_temp1 : str :=
  header_f0 ++ [10] ++ value_41 ++ [10] ++ lit "temp1:".

Definition drive_only : str := header_f0 ++ [10] ++ value_41.

Definition short_header_dump : str :=
  header_f0 ++ (10 : char) :: lit "drivetemp-scsi" ++ (10 : char) :: value_41.

Definition header_without_id : str :=
  lit "drivetemp-scsi-0-" ++ [10] ++ value_41.

Section Sensor.

Variable unicode_decimal : char -> option N.
Variable int_max_str_digits : N.

(** [json.dumps] on a [status]; it is total on values of this shape. *)
Variable json_dumps : status -> str.

(** [line.split('+')[1].split('°')[0]] and [float] of it. *)
Definition temp1_value (line : str) : result float :=
  match nth_error (split 43 line) 1 with
  | None => Raise IndexError
  | Some after_plus =>
      match split degree_sign after_plus with
      | temp_str :: _ => py_float unicode_decimal temp_str
      | [] => Raise IndexError
      end
  end.

Definition str_truthy (s : str) : bool :=
  match s with
  | [] => false
  | _ :: _ => true
  end.

(** The body of the loop over the lines of [sensors -u]. *)
Definition drive_line (st : drive_scan) (line : str) : result drive_scan :=
  if contains (lit "drivetemp-scsi") line then
    let parts := split 45 line in
    if (3 <=? length parts)%nat then
      let d := last parts [] in
      Return {| temps := dict_set d None (temps st); device_id := Some d |}
    else Return st
  else if contains (lit "temp1:") line then
    match device_id st with
    | None => Raise UnboundLocalError
    | Some d =>
        if str_truthy d && dict_mem d (temps st) then
          try_except
            (v <- temp1_value line ;;
             Return {| temps := dict_set d (Some v) (temps st);
                       device_id := Some d |})
            (fun e => match e with
                      | IndexError | ValueError => true
                      | _ => false
                      end)
            (fun _ => Return st)
        else Return st
    end
  else Return st.

Definition get_drive_temperatures (run : run_outcome)
    : M (dict (option float)) :=
  try_exceptM
    (lift (stdout <- subprocess_run run ;;
           st <- for_each drive_line (split 10 stdout)
                   {| temps := []; device_id := None |} ;;
           Return (temps st)))
    (fun e => match e with
              | TimeoutExpired | OSError ENOENT => true
              | _ => false
              end)
    (fun e => print (Stderr (DriveReadError e)) ;;; ret []).

Definition get_cpu_temperature (run : run_outcome) : result (option float) :=
  try_except
    (stdout <- subprocess_run run ;;
     if str_truthy (strip stdout) then
       temp_millidegrees <- py_int unicode_decimal int_max_str_digits
                              (strip stdout) ;;
       celsius <- int_truediv_float temp_millidegrees (float_of_Z 1000) ;;
       Return (Some celsius)
     else Return None)
    (fun e => match e with
              | TimeoutExpired | ValueError => true
              | _ => false
              end)
    (fun _ => Return None).

(** The body of the inner loop of [get_fan_status]. *)
Definition fan_name_step (line : str) (fans : dict Z) (fan_name : str)
    : result (dict Z) :=
  if contains fan_name line then
    match re_search_digits unicode_decimal line with
    | Some group1 =>
        rpm <- py_int unicode_decimal int_max_str_digits group1 ;;
        Return (dict_set fan_name rpm fans)
    | None => Return fans
    end
  else Return fans.

Definition fan_line (fans : dict Z) (line : str) : result (dict Z) :=
  for_each (fan_name_step line) fan_names fans.

Definition get_fan_status (run : run_outcome) : result (option (dict Z)) :=
  try_except
    (stdout <- subprocess_run run ;;
     fans <- for_each fan_line (split 10 stdout) [] ;;
     Return (if dict_truthy fans then Some fans else None))
    (fun e => match e with
              | TimeoutExpired | OSError ENOENT => true
              | _ => false
              end)
    (fun _ => Return None).

(** The console part of [log_status]. *)
Definition print_status (st : status) : M unit :=
  print (Stdout RuleAfterBlank) ;;;
  print (Stdout (Title (timestamp st))) ;;;
  print (Stdout Rule) ;;;
  when (dict_truthy (drive_temps st))
    (print (Stdout DriveHeading) ;;;
     for_eachM (fun item =>
                  match snd item with
                  | Some temp => print (Stdout (DriveLine (fst item) temp))
                  | None => ret tt
                  end)
       (sorted_items (drive_temps st))) ;;;
  match cpu_temp st with
  | Some temp => print (Stdout (CpuLine temp))
  | None => ret tt
  end ;;;
  match fan_status st with
  | Some fans =>
      if dict_truthy fans then
        print (Stdout FanHeading) ;;;
        for_eachM
          (fun item => print (Stdout (FanLine (fst item) (snd item))))
          (sorted_items fans)
      else print (Stdout FanUnavailable)
  | None => print (Stdout FanUnavailable)
  end.

(** The three readers in the order in which the dictionary display of
    [log_status] calls them. *)
Definition read_status (env : poll) : M status :=
  let timestamp := isoformat (now env) in
  drive <~ get_drive_temperatures (sensors_u env) ;;
  cpu <~ lift (get_cpu_temperature (thermal_zone env)) ;;
  fan <~ lift (get_fan_status (ipmitool_sdr env)) ;;
  ret {| timestamp := timestamp; drive_temps := drive;
         cpu_temp := cpu; fan_status := fan |}.

Definition log_status (self : TrueNASSensor) (env : poll) : M status :=
  st <~ read_status env ;;
  print_status st ;;;
  try_exceptM
    (open_append_write (log_file self) (json_dumps st ++ [10])
       (log_append env))
    (fun e => match e with
              | OSError _ => true
              | _ => false
              end)
    (fun e => print (Stderr (LogWriteWarning e))) ;;;
  ret st.

(* ---------------------------------------------------------------- *)
(** *** Vocabulary of the statements *)

(** The device a line establishes: the line carries the header marker and
    has at least three hyphen-delimited parts. *)
Definition header_id (line : str) : option str :=
  if contains (lit "drivetemp-scsi") line then
    let parts := split 45 line in
    if (3 <=? length parts)%nat then Some (last parts []) else None
  else None.

(** A temperature-value line: the [elif] branch of the loop is tried. *)
Definition is_value_line (line : str) : bool :=
  negb (contains (lit "drivetemp-scsi") line) && contains (lit "temp1:") line.

(** The name [device_id] is bound. *)
Definition bound (st : drive_scan) : bool :=
  match device_id st with
  | Some _ => true
  | None => false
  end.

(** No temperature-value line comes before the first device header;
    [seen] tells whether a header has been read. *)
Fixpoint well_formed_from (seen : bool) (lines : list str) : bool :=
  match lines with
  | [] => true
  | l :: r =>
      match header_id l with
      | Some _ => well_formed_from true r
      | None =>
          if is_value_line l then seen && well_formed_from seen r
          else well_formed_from seen r
      end
  end.

Definition well_formed_dump (text : str) : bool :=
  well_formed_from false (split 10 text).

(** No temperature-value line is read while [d] is the current device;
    [current] tells whether it is at the start of [lines]. *)
Fixpoint no_value_for (d : str) (current : bool) (lines : list str) : bool :=
  match lines with
  | [] => true
  | l :: r =>
      match header_id l with
      | Some d' => no_value_for d (str_eqb d' d) r
      | None =>
          if is_value_line l then negb current && no_value_for d current r
          else no_value_for d current r
      end
  end.

(** The line names the channel and holds a run of three digits. *)
Definition fan_match (fan_name line : str) : bool :=
  contains fan_name line &&
  match re_search_digits unicode_decimal line with
  | Some _ => true
  | None => false
  end.

Definition decimal_value (c : char) : N :=
  match Py_UNICODE_TODECIMAL unicode_decimal c with
  | Some d => d
  | None => 0
  end.

(** The number a run of decimal digits denotes. *)
Definition group_value (g : str) : Z :=
  Z.of_N (digits_value (map decimal_value g)).

(** The revolutions a matching line gives. *)
Definition line_rpm (line : str) : Z :=
  match re_search_digits unicode_decimal line with
  | Some g => group_value g
  | None => 0%Z
  end.

(** [g] is the first run of three to five digits of [line]: it starts at
    the first place where three digits follow each other and extends over
    the digits that follow, five at most. *)
Definition first_digit_run (line g : str) : Prop :=
  exists before after,
    line = before ++ g ++ after /\
    Forall (fun c => is_decimal unicode_decimal c = true) g /\
    (3 <= length g <= 5)%nat /\
    ((length g < 5)%nat ->
     match after with
     | c :: _ => is_decimal unicode_decimal c = false
     | [] => True
     end) /\
    (forall i, (i < length before)%nat ->
       exists c, In c (firstn 3 (skipn i line)) /\
                 is_decimal unicode_decimal c = false).

Definition run_failed (run : run_outcome) : bool :=
  match run with
  | Completed _ => false
  | TimedOut | NotFound => true
  end.

(** [m] prints and does nothing else. *)
Definition prints (m : M unit) : Prop :=
  forall w, exists out,
    m w = (Return tt, {| files := files w; console := console w ++ out |}).

(** What [sensors -u] prints for a thermal zone of the ACPI chip, which is
    not a drive. *)
Definition acpitz_dump : str :=
  lit "acpitz-acpi-0" ++ [10] ++
  lit "Adapter: ACPI interface" ++ [10] ++
  lit "temp1:" ++ [10] ++
  lit "  temp1_input: 27.800" ++ [10].

(** A one followed by four hundred zeros. *)
Definition googol4 : str := 49 :: repeat 48 400%nat.

(** A poll in which the drive tool prints the block of another chip only,
    and one in which the CPU text is a one followed by four hundred
    zeros. *)
Definition acpitz_poll : poll :=
  {| now := new_years_eve;
     sensors_u := Completed acpitz_dump;
     thermal_zone := Completed [];
     ipmitool_sdr := Completed sdr_fan1_twice;
     log_append := Appended |}.


(** The dump of the first end-to-end scenario. *)
Definition f0_dump : str :=
  lit "drivetemp-scsi-0-f0" ++ [10] ++
  lit "temp1:        +41.0" ++ [degree_sign] ++
  lit "C  (low  =  +0.0" ++ [degree_sign] ++
  lit "C, high = +60.0" ++ [degree_sign] ++ lit "C)".

(* ---------------------------------------------------------------- *)
(** *** [main] and the script *)

(** What [main] prints: its own lines, and between them what the poll
    prints. *)
Inductive main_output :=
| Banner
| LoggingTo (log_file : path)
| PressCtrlC
| FromPoll (o : output)
| WarnRuleAfterBlank
| WarnNotAvailable
| WarnNoBmcAccess
| WarnNoDutyCycle
| WarnSeeFindings
| WarnRule.

(** The default of the parameter [log_dir] of [__init__]. *)
Definition default_log_dir : str := lit "/var/log/fan_control".

(** How a run of [main] ends: what it returns or raises, the files and the
    console. *)
Record main_run := {
  returned : result Z;
  disk : path -> option str;
  screen : list main_output
}.

(** [main()]: [t0] and [mkdir] are what the construction of the sensor
    object meets, [env] what its one poll meets, [fs] the files at the
    start. *)
Definition main (t0 : datetime) (mkdir : option os_error) (env : poll)
    (fs : path -> option str) : main_run :=
  match __init__ default_log_dir t0 mkdir with
  | Raise e => {| returned := Raise e; disk := fs; screen := [] |}
  | Return monitor =>
      let head := [Banner; LoggingTo (log_file monitor); PressCtrlC] in
      match log_status monitor env {| files := fs; console := [] |} with
      | (Raise e, w) =>
          {| returned := Raise e; disk := files w;
             screen := head ++ map FromPoll (console w) |}
      | (Return status, w) =>
          match fan_status status with
          | None =>
              {| returned := Return 0%Z; disk := files w;
                 screen := head ++ map FromPoll (console w) ++
                           [WarnRuleAfterBlank; WarnNotAvailable;
                            WarnNoBmcAccess; WarnNoDutyCycle;
                            WarnSeeFindings; WarnRule] |}
          | Some _ =>
              {| returned := Return 0%Z; disk := files w;
                 screen := head ++ map FromPoll (console w) |}
          end
      end
  end.


Unset Implicit Arguments.
Set Default Proof Using "Type".

(** A proof works in the part of the interpreter its statement names. *)
Ltac tidy :=
  try clear json_dumps; try clear int_max_str_digits;
  try clear unicode_decimal.

(* ---------------------------------------------------------------- *)
(** *** Text and dictionaries *)

Lemma str_eqb_eq (a b : str) : str_eqb a b = true <-> a = b.
Proof.
  tidy.
  revert b; induction a as [|x a IH]; intros [|y b]; simpl;
    try (split; [discriminate | discriminate]); [tauto|].
  rewrite andb_true_iff, N.eqb_eq, IH.
  split; [intros [-> ->]; reflexivity | intros H; injection H; auto].
Qed.

Lemma str_eqb_refl (a : str) : str_eqb a a = true.
Proof. apply str_eqb_eq; reflexivity. Qed.

Lemma str_eqb_neq (a b : str) : a <> b -> str_eqb a b = false.
Proof.
  intros H; destruct (str_eqb a b) eqn:E; [|reflexivity].
  apply str_eqb_eq in E; contradiction.
Qed.

Lemma dict_get_set_same {V} (k : str) (v : V) (d : dict V) :
  dict_get k (dict_set k v d) = Some v.
Proof.
  induction d as [|[k' v'] d IH]; simpl.
  - rewrite str_eqb_refl; reflexivity.
  - destruct (str_eqb k k') eqn:E; simpl; rewrite E; auto.
Qed.

Lemma dict_get_set_other {V} (k k' : str) (v : V) (d : dict V) :
  k <> k' -> dict_get k' (dict_set k v d) = dict_get k' d.
Proof.
  intros Hne; induction d as [|[k0 v0] d IH]; simpl.
  - rewrite str_eqb_neq; auto.
  - destruct (str_eqb k k0) eqn:E; simpl.
    + apply str_eqb_eq in E; subst k0.
      rewrite str_eqb_neq; auto.
    + rewrite IH; reflexivity.
Qed.

Lemma keys_dict_set {V} (k : str) (v : V) (d : dict V) (k' : str) :
  In k' (keys (dict_set k v d)) <-> k' = k \/ In k' (keys d).
Proof.
  tidy.
  induction d as [|[k0 v0] d IH]; simpl.
  - intuition.
  - destruct (str_eqb k k0) eqn:E; simpl.
    + apply str_eqb_eq in E; subst k0; intuition.
    + rewrite IH; intuition.
Qed.

Lemma NoDup_keys_dict_set {V} (k : str) (v : V) (d : dict V) :
  NoDup (keys d) -> NoDup (keys (dict_set k v d)).
Proof.
  induction d as [|[k0 v0] d IH]; simpl; intros H.
  - constructor; [intros [] | constructor].
  - inversion H as [|? ? Hnin Hnd]; subst.
    destruct (str_eqb k k0) eqn:E; simpl.
    + constructor; assumption.
    + constructor; [|apply IH; assumption].
      intros Hin; apply keys_dict_set in Hin as [->|Hin]; [|contradiction].
      rewrite str_eqb_refl in E; discriminate.
Qed.

Lemma dict_get_keys {V} (k : str) (d : dict V) :
  In k (keys d) <-> dict_get k d <> None.
Proof.
  tidy.
  induction d as [|[k0 v0] d IH]; simpl.
  - intuition.
  - destruct (str_eqb k k0) eqn:E.
    + apply str_eqb_eq in E; subst; intuition discriminate.
    + rewrite <- IH; split; [intros [->|]; auto | auto].
      rewrite str_eqb_refl in E; discriminate.
Qed.

Lemma dict_mem_keys {V} (k : str) (d : dict V) :
  dict_mem k d = true <-> In k (keys d).
Proof.
  rewrite dict_get_keys; unfold dict_mem.
  destruct (dict_get k d); split; congruence.
Qed.

(** Setting a key that is there leaves the keys as they are. *)
Lemma keys_dict_set_present {V} (k : str) (v : V) (d : dict V) :
  In k (keys d) -> keys (dict_set k v d) = keys d.
Proof.
  tidy.
  induction d as [|[k0 v0] d IH]; simpl; [tauto|].
  intros H; destruct (str_eqb k k0) eqn:E; simpl; [reflexivity|].
  f_equal; apply IH; destruct H as [->|H]; [|exact H].
  rewrite str_eqb_refl in E; discriminate.
Qed.

(** [split] is never empty. *)
Lemma split_not_nil (sep : char) (s : str) : split sep s <> [].
Proof.
  tidy.
  destruct s as [|c s]; cbn [split]; [discriminate|].
  destruct (c =? sep); [discriminate|].
  destruct (split sep s); discriminate.
Qed.

(** A text without the separator in front of another text extends the
    first part of the other text. *)
Lemma split_app_head (sep : char) (t r p : str) (ps : list str) :
  ~ In sep t -> split sep r = p :: ps ->
  split sep (t ++ r) = (t ++ p) :: ps.
Proof.
  tidy.
  induction t as [|c t IH]; cbn [app split]; intros Hn Hr; [exact Hr|].
  destruct (c =? sep) eqn:E.
  - apply N.eqb_eq in E; subst; exfalso; apply Hn; left; reflexivity.
  - rewrite IH; [reflexivity | | exact Hr].
    intros H; apply Hn; right; exact H.
Qed.

Lemma split_no_sep (sep : char) (t : str) :
  ~ In sep t -> split sep t = [t].
Proof.
  tidy.
  intros Hn.
  rewrite <- (app_nil_r t) at 1.
  rewrite (split_app_head sep t [] [] [] Hn eq_refl), app_nil_r.
  reflexivity.
Qed.

Lemma split_app_sep (sep : char) (t r : str) :
  ~ In sep t -> split sep (t ++ sep :: r) = t :: split sep r.
Proof.
  tidy.
  intros Hn.
  rewrite (split_app_head sep t (sep :: r) [] (split sep r) Hn).
  - rewrite app_nil_r; reflexivity.
  - cbn [split]; rewrite N.eqb_refl; reflexivity.
Qed.

(* ---------------------------------------------------------------- *)
(** *** Loops *)

Lemma for_each_app {A S} (f : S -> A -> result S) (l1 l2 : list A) (s : S) :
  for_each f (l1 ++ l2) s = (s' <- for_each f l1 s ;; for_each f l2 s').
Proof.
  revert s; induction l1 as [|x l1 IH]; intros s; simpl; [reflexivity|].
  destruct (f s x); simpl; auto.
Qed.

(* ---------------------------------------------------------------- *)
(** *** [int] on a run of decimal digits, and the digit search *)

Lemma decimal_to_ascii (c : char) :
  is_decimal unicode_decimal c = true ->
  is_ascii_digit (48 + decimal_value c) = true /\
  forall t, to_ascii unicode_decimal (c :: t)
            = (48 + decimal_value c) :: to_ascii unicode_decimal t.
Proof.
  unfold is_decimal, decimal_value.
  destruct (Py_UNICODE_TODECIMAL unicode_decimal c) as [d|] eqn:Hd;
    [intros _ | discriminate].
  assert (Hcases : (48 <= c <= 57 /\ d = c - 48) \/
                   (128 <= c /\ Py_UNICODE_ISSPACE c = false /\ d < 10)).
  { unfold Py_UNICODE_TODECIMAL in Hd.
    destruct (is_ascii_digit c) eqn:Ha.
    - left. unfold is_ascii_digit in Ha.
      apply andb_true_iff in Ha as [H1 H2].
      apply N.leb_le in H1; apply N.leb_le in H2.
      injection Hd as <-; lia.
    - right.
      destruct ((c <? 128) || Py_UNICODE_ISSPACE c) eqn:Hs; [discriminate|].
      apply orb_false_iff in Hs as [H128 Hsp].
      destruct (unicode_decimal c) as [d'|]; [|discriminate].
      destruct (d' <? 10) eqn:Hlt; [|discriminate].
      injection Hd as <-.
      apply N.ltb_lt in Hlt; apply N.ltb_ge in H128; auto. }
  split.
  - unfold is_ascii_digit; apply andb_true_iff; split; apply N.leb_le; lia.
  - intros t; cbn [to_ascii]; rewrite Hd.
    destruct Hcases as [[Hc ->] | [Hc [Hsp _]]].
    + destruct (c <? 127) eqn:E; [f_equal; lia | apply N.ltb_ge in E; lia].
    + destruct (c <? 127) eqn:E; [apply N.ltb_lt in E; lia|].
      rewrite Hsp; reflexivity.
Qed.

Lemma to_ascii_decimals (g : str) :
  Forall (fun c => is_decimal unicode_decimal c = true) g ->
  exists ds,
    to_ascii unicode_decimal g = ds /\
    Forall (fun c => is_ascii_digit c = true) ds /\
    map (fun c => c - 48) ds = map decimal_value g.
Proof.
  induction 1 as [|c g Hc Hg [ds [IH1 [IH2 IH3]]]].
  - exists []; repeat split; constructor.
  - destruct (decimal_to_ascii c Hc) as [Hd Ht].
    exists ((48 + decimal_value c) :: ds); repeat split.
    + rewrite Ht, IH1; reflexivity.
    + constructor; assumption.
    + cbn [map]; rewrite IH3; f_equal; lia.
Qed.

Lemma digitpart_rest_digits (s : str) :
  Forall (fun c => is_ascii_digit c = true) s ->
  digitpart_rest s = (map (fun c => c - 48) s, []).
Proof.
  induction 1 as [|c s Hc Hs IH]; simpl; [reflexivity|].
  rewrite Hc, IH; reflexivity.
Qed.

Lemma ascii_digit_plain (c : char) :
  is_ascii_digit c = true ->
  Py_ISSPACE c = false /\ (c =? 45) = false /\ (c =? 43) = false.
Proof.
  unfold is_ascii_digit, Py_ISSPACE; intros H.
  apply andb_true_iff in H as [H1 H2].
  apply N.leb_le in H1; apply N.leb_le in H2.
  repeat split.
  - apply orb_false_iff; split.
    + apply andb_false_iff; right; apply N.leb_gt; lia.
    + apply N.eqb_neq; lia.
  - apply N.eqb_neq; lia.
  - apply N.eqb_neq; lia.
Qed.

(** [int] reads a run of one to 640 decimal digits as the number it
    denotes, and does not raise. *)
Lemma py_int_group (g : str) :
  Forall (fun c => is_decimal unicode_decimal c = true) g ->
  g <> [] -> (length g <= 640)%nat ->
  py_int unicode_decimal int_max_str_digits g = Return (group_value g).
Proof.
  intros Hg Hne Hlen.
  destruct (to_ascii_decimals g Hg) as [ds [Ha [Hd Hv]]].
  unfold py_int, group_value; rewrite Ha, <- Hv.
  assert (Hl : length ds = length g).
  { transitivity (length (map (fun c => c - 48) ds));
      [symmetry; apply length_map | rewrite Hv; apply length_map]. }
  destruct ds as [|a ds]; [destruct g; [contradiction | discriminate]|].
  inversion Hd as [|? ? Hc Hd']; subst.
  destruct (ascii_digit_plain _ Hc) as [Hsp [Hm Hp]].
  cbn [lstrip]; rewrite Hsp.
  unfold sign; rewrite Hm, Hp.
  unfold digitpart; rewrite Hc, (digitpart_rest_digits _ Hd').
  cbn [lstrip].
  match goal with
  | |- context [too_many_digits _ ?n] =>
      assert (Hfew : too_many_digits int_max_str_digits n = false)
  end.
  { unfold too_many_digits.
    destruct (int_max_str_digits =? 0); [reflexivity|].
    apply N.ltb_ge. cbn [length] in *. rewrite length_map.
    apply N.le_trans with 640; [| apply N.le_max_l].
    unfold str, char in *; lia. }
  rewrite Hfew; reflexivity.
Qed.

Lemma take_digits_decimal (n : nat) (s : str) :
  Forall (fun c => is_decimal unicode_decimal c = true)
    (take_digits unicode_decimal n s).
Proof.
  revert s; induction n as [|n IH]; intros [|c s]; simpl; try constructor.
  destruct (is_decimal unicode_decimal c) eqn:E; constructor; auto.
Qed.

Lemma take_digits_length (n : nat) (s : str) :
  (length (take_digits unicode_decimal n s) <= n)%nat.
Proof.
  revert s; induction n as [|n IH]; intros [|c s]; simpl; try lia.
  destruct (is_decimal unicode_decimal c); simpl; [|lia].
  specialize (IH s); lia.
Qed.

(** The run is a prefix of the text; when it is shorter than the bound,
    no digit follows it. *)
Lemma take_digits_prefix (n : nat) (s : str) :
  exists after,
    s = take_digits unicode_decimal n s ++ after /\
    ((length (take_digits unicode_decimal n s) < n)%nat ->
     match after with
     | c :: _ => is_decimal unicode_decimal c = false
     | [] => True
     end).
Proof.
  revert s; induction n as [|n IH]; intros s.
  - exists s; destruct s; simpl; split; auto; lia.
  - destruct s as [|c s]; simpl.
    + exists []; split; auto.
    + destruct (is_decimal unicode_decimal c) eqn:E.
      * destruct (IH s) as [after [H1 H2]].
        exists after; split; [simpl; f_equal; exact H1|].
        simpl; intros; apply H2; lia.
      * exists (c :: s); split; [reflexivity | intros; exact E].
Qed.

Lemma take_digits_short (n : nat) (s : str) :
  (length (take_digits unicode_decimal n s) < 3)%nat ->
  (3 <= n)%nat -> (3 <= length s)%nat ->
  exists c, In c (firstn 3 s) /\ is_decimal unicode_decimal c = false.
Proof.
  intros Hshort Hn Hs.
  destruct n as [|[|[|n]]]; try lia.
  destruct s as [|a [|b [|c s]]]; simpl in Hs; try lia.
  simpl in Hshort |- *.
  destruct (is_decimal unicode_decimal a) eqn:Ea; [|eauto].
  destruct (is_decimal unicode_decimal b) eqn:Eb; [|eauto 6].
  destruct (is_decimal unicode_decimal c) eqn:Ec; [|eauto 7].
  simpl in Hshort; lia.
Qed.

(** The search returns the first run of three to five digits. *)
Lemma re_search_digits_run (line g : str) :
  re_search_digits unicode_decimal line = Some g -> first_digit_run line g.
Proof.
  induction line as [|c t IH]; [discriminate|].
  unfold re_search_digits; fold (re_search_digits unicode_decimal).
  set (r := take_digits unicode_decimal 5 (c :: t)).
  destruct (3 <=? length r)%nat eqn:E.
  - intros H; injection H as <-.
    apply Nat.leb_le in E.
    destruct (take_digits_prefix 5 (c :: t)) as [after [H1 H2]].
    exists [], after; fold r in H1, H2; simpl.
    repeat split; auto.
    + apply take_digits_decimal.
    + apply take_digits_length.
    + intros i Hi; lia.
  - intros H. apply Nat.leb_gt in E.
    destruct (IH H) as [before [after [H1 [H2 [H3 [H4 H5]]]]]].
    exists (c :: before), after; simpl.
    repeat split; auto; try lia.
    + f_equal; exact H1.
    + intros [|i] Hi.
      * apply (take_digits_short 5); [exact E | lia |].
        simpl; rewrite H1, !length_app; lia.
      * simpl; apply H5; lia.
Qed.

Lemma re_search_digits_int (line g : str) :
  re_search_digits unicode_decimal line = Some g ->
  py_int unicode_decimal int_max_str_digits g = Return (group_value g).
Proof.
  intros H; apply re_search_digits_run in H.
  destruct H as [before [after [_ [H2 [H3 _]]]]].
  apply py_int_group; [exact H2 | | lia].
  intros ->; simpl in H3; lia.
Qed.

(* ---------------------------------------------------------------- *)
(** *** The fan loops *)

Lemma fan_name_step_returns (line : str) (fans : dict Z) (n : str) :
  fan_name_step line fans n
  = Return (if fan_match n line then dict_set n (line_rpm line) fans
            else fans).
Proof.
  unfold fan_name_step, fan_match, line_rpm.
  destruct (contains n line); [|reflexivity].
  destruct (re_search_digits unicode_decimal line) as [g|] eqn:E;
    [|reflexivity].
  rewrite (re_search_digits_int _ _ E); reflexivity.
Qed.

Lemma existsb_str_eqb (k : str) (l : list str) :
  existsb (str_eqb k) l = true <-> In k l.
Proof.
  rewrite existsb_exists; split.
  - intros [x [Hx E]]; apply str_eqb_eq in E; subst; exact Hx.
  - intros H; exists k; split; [exact H | apply str_eqb_refl].
Qed.

(** The inner loop over a list [ns] of channel names. *)
Lemma fan_names_loop (line : str) (ns : list str) :
  forall fans, exists fans',
    for_each (fan_name_step line) ns fans = Return fans' /\
    (forall k, In k (keys fans') -> In k (keys fans) \/ In k ns) /\
    (forall k, In k (keys fans) -> In k (keys fans')) /\
    (forall k, dict_get k fans'
               = if existsb (str_eqb k) ns && fan_match k line
                 then Some (line_rpm line) else dict_get k fans) /\
    ((forall n, In n ns -> fan_match n line = false) -> fans' = fans).
Proof.
  induction ns as [|n ns IH]; intros fans; cbn [for_each].
  - exists fans; repeat split; auto.
  - rewrite fan_name_step_returns; cbn [bind].
    set (fans1 := if fan_match n line then dict_set n (line_rpm line) fans
                  else fans).
    destruct (IH fans1) as [fans' [E [Hsub [Hmono [Hget Hid]]]]].
    exists fans'; split; [exact E|].
    assert (Hk1 : forall k, In k (keys fans1) <-> (In k (keys fans) \/
                    (k = n /\ fan_match n line = true))).
    { intros k; unfold fans1; destruct (fan_match n line).
      - rewrite keys_dict_set; intuition.
      - intuition discriminate. }
    repeat split.
    + intros k Hk; apply Hsub in Hk as [Hk|Hk]; [|right; right; exact Hk].
      apply Hk1 in Hk as [Hk|[-> _]]; [left; exact Hk | right; left; auto].
    + intros k Hk; apply Hmono, Hk1; left; exact Hk.
    + intros k; rewrite Hget; cbn [existsb].
      destruct (existsb (str_eqb k) ns && fan_match k line) eqn:E1.
      * apply andb_true_iff in E1 as [-> ->].
        rewrite orb_true_r; reflexivity.
      * unfold fans1. destruct (str_eqb k n) eqn:Ekn.
        -- apply str_eqb_eq in Ekn; subst k.
           destruct (fan_match n line); cbn [orb andb].
           ++ apply dict_get_set_same.
           ++ destruct (existsb (str_eqb n) ns); reflexivity.
        -- rewrite orb_false_l, E1.
           destruct (fan_match n line); [|reflexivity].
           apply dict_get_set_other; intros ->.
           rewrite str_eqb_refl in Ekn; discriminate.
    + intros Hno. rewrite Hid.
      * unfold fans1; rewrite (Hno n (or_introl eq_refl)); reflexivity.
      * intros m Hm; apply Hno; right; exact Hm.
Qed.

(** The loop over the lines. *)
Lemma fan_lines_loop (lines : list str) :
  forall fans, exists fans',
    for_each fan_line lines fans = Return fans' /\
    (forall k, In k (keys fans') -> In k (keys fans) \/ In k fan_names) /\
    (forall k, In k (keys fans) -> In k (keys fans')) /\
    (forall k, (forall l, In l lines -> fan_match k l = false) ->
               dict_get k fans' = dict_get k fans) /\
    ((forall l n, In l lines -> In n fan_names -> fan_match n l = false) ->
     fans' = fans).
Proof.
  induction lines as [|l lines IH]; intros fans; cbn [for_each].
  - exists fans; repeat split; auto.
  - unfold fan_line at 1.
    destruct (fan_names_loop l fan_names fans)
      as [fans1 [E1 [Hsub1 [Hmono1 [Hget1 Hid1]]]]].
    rewrite E1; cbn [bind].
    destruct (IH fans1) as [fans' [E [Hsub [Hmono [Hget Hid]]]]].
    exists fans'; split; [exact E|]; repeat split.
    + intros k Hk; apply Hsub in Hk as [Hk|Hk]; auto.
    + intros k Hk; auto.
    + intros k Hno. rewrite Hget, Hget1.
      * rewrite (Hno l (or_introl eq_refl)), andb_false_r; reflexivity.
      * intros l' Hl'; apply Hno; right; exact Hl'.
    + intros Hno. rewrite Hid.
      * apply Hid1; intros n Hn; apply Hno; [left; reflexivity | exact Hn].
      * intros l' n Hl' Hn; apply Hno; [right; exact Hl' | exact Hn].
Qed.

(** A line that matches a recognised channel leaves the channel in the
    mapping, with the revolutions of that line. *)
Lemma fan_line_sets (line : str) (fans : dict Z) (k : str) :
  In k fan_names -> fan_match k line = true ->
  exists fans', fan_line fans line = Return fans' /\
                dict_get k fans' = Some (line_rpm line).
Proof.
  intros Hk Hm. unfold fan_line.
  destruct (fan_names_loop line fan_names fans) as [fans' [E [_ [_ [Hg _]]]]].
  exists fans'; split; [exact E|].
  rewrite Hg, Hm, (proj2 (existsb_str_eqb k fan_names) Hk); reflexivity.
Qed.

(** What the scan of a dump gives for a channel whose last matching line
    is [l]. *)
Lemma fan_scan_last_match (before after : list str) (l k : str) :
  In k fan_names -> fan_match k l = true ->
  (forall l', In l' after -> fan_match k l' = false) ->
  exists fans, for_each fan_line (before ++ l :: after) [] = Return fans /\
               dict_get k fans = Some (line_rpm l).
Proof.
  intros Hk Hm Hafter.
  rewrite for_each_app.
  destruct (fan_lines_loop before []) as [f1 [E1 _]]; rewrite E1.
  cbn [bind for_each].
  destruct (fan_line_sets l f1 k Hk Hm) as [f2 [E2 G2]]; rewrite E2.
  cbn [bind].
  destruct (fan_lines_loop after f2) as [f3 [E3 [_ [_ [G3 _]]]]].
  exists f3; split; [exact E3|].
  rewrite (G3 k Hafter); exact G2.
Qed.

(** The scan gives the empty mapping exactly when no line matches a
    recognised channel. *)
Lemma fan_scan_empty (lines : list str) :
  exists fans, for_each fan_line lines [] = Return fans /\
    (fans = [] <->
     forall l n, In l lines -> In n fan_names -> fan_match n l = false).
Proof.
  destruct (fan_lines_loop lines []) as [fans [E [_ [_ [_ Hid]]]]].
  exists fans; split; [exact E|]; split; [|exact Hid].
  intros -> l n Hl Hn.
  destruct (fan_match n l) eqn:Hm; [|reflexivity].
  apply in_split in Hl as [before [after ->]].
  rewrite for_each_app in E.
  destruct (fan_lines_loop before []) as [f1 [E1 _]]; rewrite E1 in E.
  cbn [bind for_each] in E.
  destruct (fan_line_sets l f1 n Hn Hm) as [f2 [E2 G2]]; rewrite E2 in E.
  cbn [bind] in E.
  destruct (fan_lines_loop after f2) as [f3 [E3 [_ [Hmono _]]]].
  rewrite E3 in E; injection E as ->.
  assert (Hin : In n (keys f2)) by (apply dict_get_keys; congruence).
  apply Hmono in Hin; destruct Hin.
Qed.

(* ---------------------------------------------------------------- *)
(** *** The loop over the lines of the drive dump *)

Lemma is_value_line_no_header (line : str) :
  is_value_line line = true ->
  contains (lit "drivetemp-scsi") line = false /\
  contains (lit "temp1:") line = true /\ header_id line = None.
Proof.
  unfold is_value_line, header_id; intros H.
  apply andb_true_iff in H as [H1 H2].
  apply negb_true_iff in H1; rewrite H1; auto.
Qed.

Lemma drive_line_header (st : drive_scan) (line d : str) :
  header_id line = Some d ->
  drive_line st line
  = Return {| temps := dict_set d None (temps st); device_id := Some d |}.
Proof.
  unfold header_id, drive_line.
  destruct (contains (lit "drivetemp-scsi") line); [|discriminate].
  cbv zeta.
  destruct (3 <=? length (split 45%N line))%nat; [|discriminate].
  intros H; injection H as <-; reflexivity.
Qed.

Lemma drive_line_short (st : drive_scan) (line : str) :
  contains (lit "drivetemp-scsi") line = true ->
  (length (split 45%N line) < 3)%nat ->
  drive_line st line = Return st.
Proof.
  intros Hm Hlen; unfold drive_line; rewrite Hm; cbv zeta.
  apply Nat.leb_gt in Hlen; rewrite Hlen; reflexivity.
Qed.

Lemma drive_line_other (st : drive_scan) (line : str) :
  header_id line = None -> is_value_line line = false ->
  drive_line st line = Return st.
Proof.
  unfold header_id, is_value_line, drive_line.
  destruct (contains (lit "drivetemp-scsi") line); cbv zeta.
  - destruct (3 <=? length (split 45%N line))%nat; [discriminate|reflexivity].
  - intros _; cbn [negb andb]; intros ->; reflexivity.
Qed.

Lemma drive_line_value_unbound (st : drive_scan) (line : str) :
  is_value_line line = true -> device_id st = None ->
  drive_line st line = Raise UnboundLocalError.
Proof.
  intros Hv Hd; apply is_value_line_no_header in Hv as [H1 [H2 _]].
  unfold drive_line; rewrite H1, H2, Hd; reflexivity.
Qed.

(** What a temperature-value line does once a device is current. *)
Lemma drive_line_value_bound (st : drive_scan) (line d : str) :
  is_value_line line = true -> device_id st = Some d ->
  drive_line st line
  = Return (if str_truthy d && dict_mem d (temps st) then
              match temp1_value line with
              | Return v => {| temps := dict_set d (Some v) (temps st);
                               device_id := Some d |}
              | Raise _ => st
              end
            else st).
Proof.
  intros Hv Hd; apply is_value_line_no_header in Hv as [H1 [H2 _]].
  unfold drive_line; rewrite H1, H2, Hd.
  destruct (str_truthy d && dict_mem d (temps st)); [|reflexivity].
  assert (Hraise : forall e, temp1_value line = Raise e ->
                             e = IndexError \/ e = ValueError).
  { unfold temp1_value; intros e.
    destruct (nth_error (split 43 line) 1); [|intros H; injection H; auto].
    destruct (split degree_sign s); [intros H; injection H; auto|].
    unfold py_float.
    destruct (sign _) as [neg body].
    destruct (_ || _); [discriminate|].
    destruct (str_eqb _ _); [discriminate|].
    destruct (number body) as [[[ip fp] r]|]; [|intros H; injection H; auto].
    destruct (exponent r); [discriminate | intros H; injection H; auto]. }
  destruct (temp1_value line) as [v|e]; [reflexivity|].
  destruct (Hraise e eq_refl) as [-> | ->]; reflexivity.
Qed.

(** One line of the dump, when the body returns: the keys grow by the
    device of a header line and by nothing else. *)
Lemma drive_line_keys (st st' : drive_scan) (line : str) :
  drive_line st line = Return st' ->
  (NoDup (keys (temps st)) -> NoDup (keys (temps st'))) /\
  (forall d, In d (keys (temps st')) <->
             In d (keys (temps st)) \/ header_id line = Some d).
Proof.
  intros E.
  destruct (header_id line) as [d0|] eqn:Hh.
  - rewrite (drive_line_header st line d0 Hh) in E; injection E as <-.
    cbn [temps]; split; [apply NoDup_keys_dict_set|].
    intros d; rewrite keys_dict_set; split; intros [H|H]; auto.
    + subst; auto.
    + injection H as ->; auto.
  - destruct (is_value_line line) eqn:Hv.
    + destruct (device_id st) as [d0|] eqn:Hd.
      * rewrite (drive_line_value_bound st line d0 Hv Hd) in E.
        injection E as <-.
        assert (Hsame : forall st1,
                  st1 = (if str_truthy d0 && dict_mem d0 (temps st) then
                           match temp1_value line with
                           | Return v =>
                               {| temps := dict_set d0 (Some v) (temps st);
                                  device_id := Some d0 |}
                           | Raise _ => st
                           end
                         else st) ->
                  keys (temps st1) = keys (temps st)).
        { intros st1 ->.
          destruct (str_truthy d0 && dict_mem d0 (temps st)) eqn:Hc;
            [|reflexivity].
          apply andb_true_iff in Hc as [_ Hc]; apply dict_mem_keys in Hc.
          destruct (temp1_value line); [|reflexivity].
          apply keys_dict_set_present; exact Hc. }
        rewrite (Hsame _ eq_refl); split; [auto|].
        intros d; split; [auto | intros [H|H]; [exact H | discriminate]].
      * rewrite (drive_line_value_unbound st line Hv Hd) in E; discriminate.
    + rewrite (drive_line_other st line Hh Hv) in E; injection E as <-.
      split; [auto|].
      intros d; split; [auto | intros [H|H]; [exact H | discriminate]].
Qed.

Lemma drive_scan_keys (lines : list str) :
  forall st st',
    for_each drive_line lines st = Return st' ->
    (NoDup (keys (temps st)) -> NoDup (keys (temps st'))) /\
    (forall d, In d (keys (temps st')) <->
               In d (keys (temps st)) \/
               exists h, In h lines /\ header_id h = Some d).
Proof.
  induction lines as [|l lines IH]; intros st st'; cbn [for_each].
  - intros E; injection E as <-; split; [auto|].
    intros d; split; [auto | intros [H|[h [[] _]]]; exact H].
  - destruct (drive_line st l) as [st1|e] eqn:E1; [|discriminate].
    cbn [bind]; intros E.
    destruct (drive_line_keys st st1 l E1) as [N1 K1].
    destruct (IH st1 st' E) as [N2 K2].
    split; [auto|].
    intros d; rewrite K2, K1; split.
    + intros [[H|H]|[h [H1 H2]]]; auto.
      * right; exists l; split; [left; reflexivity | exact H].
      * right; exists h; split; [right; exact H1 | exact H2].
    + intros [H|[h [[<-|H1] H2]]]; auto.
      right; exists h; auto.
Qed.

(** On a well-formed dump the loop ends without raising. *)
Lemma drive_scan_returns (lines : list str) :
  forall st, well_formed_from (bound st) lines = true ->
             exists st', for_each drive_line lines st = Return st'.
Proof.
  induction lines as [|l lines IH]; intros st; cbn [for_each well_formed_from].
  - eauto.
  - destruct (header_id l) as [d|] eqn:Hh.
    + rewrite (drive_line_header st l d Hh); cbn [bind]; intros H.
      apply IH; exact H.
    + destruct (is_value_line l) eqn:Hv.
      * intros H; apply andb_true_iff in H as [Hb H].
        unfold bound in Hb.
        destruct (device_id st) as [d|] eqn:Hd; [|discriminate].
        rewrite (drive_line_value_bound st l d Hv Hd); cbn [bind].
        apply IH.
        replace (bound _) with (bound st); [exact H|].
        unfold bound; rewrite Hd.
        destruct (str_truthy d && dict_mem d (temps st)); [|rewrite Hd; auto].
        destruct (temp1_value l); [reflexivity | rewrite Hd; auto].
      * rewrite (drive_line_other st l Hh Hv); cbn [bind]; apply IH.
Qed.

(** A device keeps the value [None] as long as no temperature-value line
    is read while it is the current one. *)
Lemma drive_scan_keeps_none (d : str) (lines : list str) :
  forall current st st',
    no_value_for d current lines = true ->
    for_each drive_line lines st = Return st' ->
    dict_get d (temps st) = Some None ->
    (current = false -> device_id st <> Some d) ->
    dict_get d (temps st') = Some None.
Proof.
  induction lines as [|l lines IH]; intros current st st';
    cbn [for_each no_value_for].
  - intros _ E; injection E as <-; auto.
  - destruct (header_id l) as [d'|] eqn:Hh.
    + rewrite (drive_line_header st l d' Hh); cbn [bind].
      intros Hn E Hg _.
      apply (IH _ _ _ Hn E); cbn [temps device_id].
      * destruct (str_eqb d' d) eqn:Ed.
        -- apply str_eqb_eq in Ed; subst; apply dict_get_set_same.
        -- rewrite dict_get_set_other; [exact Hg|].
           intros ->; rewrite str_eqb_refl in Ed; discriminate.
      * intros Ed H; injection H as ->.
        rewrite str_eqb_refl in Ed; discriminate.
    + destruct (is_value_line l) eqn:Hv.
      * intros Hn; apply andb_true_iff in Hn as [Hc Hn].
        apply negb_true_iff in Hc; subst current.
        destruct (device_id st) as [d0|] eqn:Hd.
        -- rewrite (drive_line_value_bound st l d0 Hv Hd); cbn [bind].
           intros E Hg Hcur.
           assert (Hne : d0 <> d) by (intros ->; apply Hcur; reflexivity).
           apply (IH _ _ _ Hn E).
           ++ destruct (str_truthy d0 && dict_mem d0 (temps st)); [|exact Hg].
              destruct (temp1_value l); [|exact Hg].
              cbn [temps]; rewrite dict_get_set_other; assumption.
           ++ intros _.
              destruct (str_truthy d0 && dict_mem d0 (temps st));
                [|rewrite Hd; congruence].
              destruct (temp1_value l); [cbn [device_id] | rewrite Hd];
                congruence.
        -- rewrite (drive_line_value_unbound st l Hv Hd); discriminate.
      * rewrite (drive_line_other st l Hh Hv); cbn [bind].
        intros Hn E Hg Hcur; apply (IH _ _ _ Hn E Hg Hcur).
Qed.

(* ---------------------------------------------------------------- *)
(** *** Printing and the log file *)

Lemma path_eqb_eq (p q : path) : path_eqb p q = true <-> p = q.
Proof.
  destruct p as [a b], q as [c d]; unfold path_eqb; cbn [parent name].
  rewrite andb_true_iff, !str_eqb_eq.
  split; [intros [-> ->]; reflexivity | intros H; injection H; auto].
Qed.

Lemma prints_ret : prints (ret tt).
Proof. intros w; exists []; rewrite app_nil_r; destruct w; reflexivity. Qed.

Lemma prints_print (o : output) : prints (print o).
Proof. intros w; exists [o]; reflexivity. Qed.

Lemma prints_seq (m1 m2 : M unit) :
  prints m1 -> prints m2 -> prints (m1 ;;; m2).
Proof.
  intros H1 H2 w; unfold bindM.
  destruct (H1 w) as [o1 E1]; rewrite E1.
  destruct (H2 {| files := files w; console := console w ++ o1 |})
    as [o2 E2]; rewrite E2; cbn [files console].
  exists (o1 ++ o2); rewrite app_assoc; reflexivity.
Qed.

Lemma prints_for_eachM {A} (f : A -> M unit) (l : list A) :
  (forall x, prints (f x)) -> prints (for_eachM f l).
Proof.
  intros Hf; induction l as [|x l IH]; cbn [for_eachM].
  - apply prints_ret.
  - apply prints_seq; auto.
Qed.

(** The console part of [log_status] prints and does nothing else. *)
Lemma prints_print_status (st : status) : prints (print_status st).
Proof.
  unfold print_status.
  repeat (apply prints_seq; [try apply prints_print|]).
  - unfold when; destruct (dict_truthy (drive_temps st));
      [|apply prints_ret].
    apply prints_seq; [apply prints_print|].
    apply prints_for_eachM; intros [k [t|]];
      [apply prints_print | apply prints_ret].
  - destruct (cpu_temp st); [apply prints_print | apply prints_ret].
  - destruct (fan_status st) as [fans|]; [|apply prints_print].
    destruct (dict_truthy fans); [|apply prints_print].
    apply prints_seq; [apply prints_print|].
    apply prints_for_eachM; intros; apply prints_print.
Qed.

(** The readers leave the files alone. *)
Lemma read_status_files (env : poll) (w w1 : world) (r : result status) :
  read_status env w = (r, w1) -> files w1 = files w.
Proof.
  unfold read_status, bindM, get_drive_temperatures, try_exceptM, lift, ret.
  destruct (stdout <- subprocess_run (sensors_u env);;
            st <- for_each drive_line (split 10 stdout)
                    {| temps := []; device_id := None |};;
            Return (temps st)) as [t|e].
  - destruct (get_cpu_temperature (thermal_zone env));
      [|intros H; injection H as _ <-; reflexivity].
    destruct (get_fan_status (ipmitool_sdr env));
      intros H; injection H as _ <-; reflexivity.
  - destruct (match e with
              | TimeoutExpired | OSError ENOENT => true
              | _ => false
              end); [|intros H; injection H as _ <-; reflexivity].
    unfold print; cbn [files console].
    destruct (get_cpu_temperature (thermal_zone env));
      [|intros H; injection H as _ <-; reflexivity].
    destruct (get_fan_status (ipmitool_sdr env));
      intros H; injection H as _ <-; reflexivity.
Qed.

(** [log_status] once the readers have returned [st]: what is printed, and
    the file as the append leaves it. *)
Lemma log_status_after_read (self : TrueNASSensor) (env : poll)
    (w w1 : world) (st : status) :
  read_status env w = (Return st, w1) ->
  exists out,
    log_status self env w
    = (Return st,
       match log_append env with
       | Appended =>
           append_to (log_file self) (json_dumps st ++ [10])
             {| files := files w; console := console w1 ++ out |}
       | OpenFailed k =>
           {| files := files w;
              console := (console w1 ++ out)
                         ++ [Stderr (LogWriteWarning (OSError k))] |}
       | WriteFailed k n =>
           let w2 := append_to (log_file self)
                       (firstn n (json_dumps st ++ [10]))
                       {| files := files w; console := console w1 ++ out |}
           in {| files := files w2;
                 console := console w2
                            ++ [Stderr (LogWriteWarning (OSError k))] |}
       end).
Proof.
  intros Hr. pose proof (read_status_files _ _ _ _ Hr) as Hf.
  destruct (prints_print_status st w1) as [out Hp]; exists out.
  unfold log_status, bindM at 1; rewrite Hr.
  unfold bindM at 1; rewrite Hp, Hf.
  unfold bindM, try_exceptM, open_append_write, ret, print.
  destruct (log_append env); reflexivity.
Qed.

(* ---------------------------------------------------------------- *)
(** *** The reader of the drive temperatures *)

Lemma get_drive_temperatures_returns (stdout : str) (w : world)
    (st : drive_scan) :
  for_each drive_line (split 10 stdout) {| temps := []; device_id := None |}
  = Return st ->
  get_drive_temperatures (Completed stdout) w = (Return (temps st), w).
Proof.
  intros E; unfold get_drive_temperatures, try_exceptM, lift.
  cbn [subprocess_run bind]; rewrite E; reflexivity.
Qed.

Lemma get_drive_temperatures_unbound (stdout : str) (w : world) :
  for_each drive_line (split 10 stdout) {| temps := []; device_id := None |}
  = Raise UnboundLocalError ->
  get_drive_temperatures (Completed stdout) w = (Raise UnboundLocalError, w).
Proof.
  intros E; unfold get_drive_temperatures, try_exceptM, lift.
  cbn [subprocess_run bind]; rewrite E; reflexivity.
Qed.

(** A temperature-value line read before any line has established a
    device makes the loop raise. *)
Lemma value_line_first_raises (before after : list str) (v : str) :
  forall st,
    device_id st = None ->
    (forall l, In l before ->
               header_id l = None /\ is_value_line l = false) ->
    is_value_line v = true ->
    for_each drive_line (before ++ v :: after) st = Raise UnboundLocalError.
Proof.
  induction before as [|l before IH]; intros st Hd Hb Hv; cbn [app for_each].
  - rewrite (drive_line_value_unbound st v Hv Hd); reflexivity.
  - destruct (Hb l (or_introl eq_refl)) as [Hh Hn].
    rewrite (drive_line_other st l Hh Hn); cbn [bind].
    apply IH; auto.
    intros l' Hl'; apply Hb; right; exact Hl'.
Qed.

(** After the block of the ACPI thermal zone the loop has raised, whatever
    follows the block. *)
Lemma acpitz_first_raises (rest : str) :
  for_each drive_line (split 10 (acpitz_dump ++ rest))
    {| temps := []; device_id := None |}
  = Raise UnboundLocalError.
Proof.
  change (split 10 (acpitz_dump ++ rest))
    with ([lit "acpitz-acpi-0"; lit "Adapter: ACPI interface"]
          ++ lit "temp1:"
             :: lit "  temp1_input: 27.800" :: split 10 rest).
  apply value_line_first_raises; [reflexivity | | reflexivity].
  intros l [<-|[<-|[]]]; split; reflexivity.
Qed.

(** In the words of the second claim: when the first line with the marker
    [temp1:] has no line with the marker [drivetemp-scsi] before it and
    does not carry that marker itself, the reader raises. *)
Lemma temp1_before_marker_raises (stdout : str) (before after : list str)
    (v : str) (w : world) :
  split 10 stdout = before ++ v :: after ->
  contains (lit "temp1:") v = true ->
  contains (lit "drivetemp-scsi") v = false ->
  (forall l, In l before ->
             contains (lit "drivetemp-scsi") l = false /\
             contains (lit "temp1:") l = false) ->
  get_drive_temperatures (Completed stdout) w = (Raise UnboundLocalError, w).
Proof.
  intros Hs Ht Hm Hb.
  apply get_drive_temperatures_unbound; rewrite Hs.
  apply value_line_first_raises; [reflexivity | |].
  - intros l Hl; destruct (Hb l Hl) as [H1 H2].
    unfold header_id, is_value_line; rewrite H1, H2; auto.
  - unfold is_value_line; rewrite Hm, Ht; reflexivity.
Qed.

(** C2 (the code departs from the claim): a dump whose first line with the
    marker [temp1:] comes before any line with the marker
    [drivetemp-scsi] is not read with that line ignored: the reader
    raises [UnboundLocalError]. Here the dump starts with the block of an
    ACPI thermal zone and goes on with any text. *)
Theorem value_line_before_header_raises (rest : str) (w : world) :
  get_drive_temperatures (Completed (acpitz_dump ++ rest)) w
  = (Raise UnboundLocalError, w).
Proof.
  apply get_drive_temperatures_unbound, acpitz_first_raises.
Qed.

(** C4: on a well-formed dump (no temperature-value line before the first
    device header) the reader returns a mapping without repeated keys
    whose keys are exactly the devices of the header lines, so that every
    header line has exactly one key; a device whose header is followed by
    no temperature-value line read while it is current maps to [None];
    and the dump of device f0 with [temp1: +41.0°C ...] gives
    [{"f0": 41.0}]. *)
Theorem drive_dump_keys_and_values (stdout : str) (w : world) :
  well_formed_dump stdout = true ->
  exists temps,
    get_drive_temperatures (Completed stdout) w = (Return temps, w) /\
    NoDup (keys temps) /\
    (forall d, In d (keys temps) <->
               exists h, In h (split 10 stdout) /\ header_id h = Some d) /\
    (forall before h after d,
       split 10 stdout = before ++ h :: after ->
       header_id h = Some d ->
       no_value_for d true after = true ->
       dict_get d temps = Some None) /\
    get_drive_temperatures (Completed f0_dump) w
    = (Return [(lit "f0", Some (float_of_Z 41))], w).
Proof.
  intros Hwf.
  destruct (drive_scan_returns (split 10 stdout)
              {| temps := []; device_id := None |} Hwf) as [st E].
  exists (temps st).
  destruct (drive_scan_keys _ _ _ E) as [Hnd Hk].
  split; [apply get_drive_temperatures_returns; exact E|].
  split; [apply Hnd; constructor|].
  split.
  - intros d; rewrite Hk; cbn [temps keys map].
    split; [intros [[]|H]; exact H | auto].
  - split.
    + intros before h after d Hs Hh Hn.
      rewrite Hs, for_each_app in E.
      destruct (for_each drive_line before _) as [s1|]; [|discriminate].
      cbn [bind for_each] in E.
      rewrite (drive_line_header s1 h d Hh) in E; cbn [bind] in E.
      apply (drive_scan_keeps_none d after true _ _ Hn E).
      * apply dict_get_set_same.
      * discriminate.
    + apply (get_drive_temperatures_returns f0_dump w
               {| temps := [(lit "f0", Some (float_of_Z 41))];
                  device_id := Some (lit "f0") |}).
      vm_compute; reflexivity.
Qed.

(** The temperature of a line by its shape: the text between the first
    plus sign and the degree sign or plus sign that follows it. *)
Lemma temp1_value_of_shape (a t r : str) :
  ~ In 43 a -> ~ In 43 t -> ~ In degree_sign t ->
  match r with
  | [] => True
  | c :: _ => c = 43 \/ c = degree_sign
  end ->
  temp1_value (a ++ (43 : char) :: t ++ r) = py_float unicode_decimal t.
Proof.
  intros Ha Ht Hd Hr.
  unfold temp1_value.
  rewrite (split_app_sep 43 a (t ++ r) Ha).
  destruct r as [|c r].
  - rewrite app_nil_r, (split_no_sep 43 t Ht); cbn [nth_error].
    rewrite (split_no_sep degree_sign t Hd); reflexivity.
  - destruct Hr as [-> | ->].
    + rewrite (split_app_sep 43 t r Ht); cbn [nth_error].
      rewrite (split_no_sep degree_sign t Hd); reflexivity.
    + destruct (split 43 (degree_sign :: r)) as [|p ps] eqn:Es;
        [destruct (split_not_nil _ _ Es)|].
      assert (Hp : exists p', p = degree_sign :: p').
      { cbn [split] in Es.
        replace (degree_sign =? 43) with false in Es by reflexivity.
        destruct (split 43 r) as [|q qs]; injection Es as <- _; eauto. }
      destruct Hp as [p' ->].
      rewrite (split_app_head 43 t _ _ _ Ht Es); cbn [nth_error].
      rewrite (split_app_sep degree_sign t p' Hd); reflexivity.
Qed.

(** C10: a line with the marker [drivetemp-scsi] that splits into fewer
    than three hyphen-delimited parts leaves the mapping and the current
    device as they are, and the reader gives what it gives without the
    line. A temperature-value line after it is attributed to the device
    that was current before it, not dropped: the device gets the value of
    the line, which is the number between the first plus sign of the line
    and the degree sign that follows; so the header of f0, then such a
    line, then [temp1: +41.0°C] give [{"f0": 41.0}]. *)
Theorem short_header_line_keeps_device (line : str) :
  contains (lit "drivetemp-scsi") line = true ->
  (length (split 45%N line) < 3)%nat ->
  (forall st, drive_line st line = Return st) /\
  (forall stdout stdout' before after w,
     split 10 stdout = before ++ line :: after ->
     split 10 stdout' = before ++ after ->
     get_drive_temperatures (Completed stdout) w
     = get_drive_temperatures (Completed stdout') w) /\
  (forall st d value v,
     device_id st = Some d -> d <> [] -> In d (keys (temps st)) ->
     is_value_line value = true -> temp1_value value = Return v ->
     for_each drive_line [line; value] st
     = Return {| temps := dict_set d (Some v) (temps st);
                 device_id := Some d |}) /\
  (forall st d a t r v,
     device_id st = Some d -> d <> [] -> In d (keys (temps st)) ->
     is_value_line (a ++ (43 : char) :: t ++ r) = true ->
     ~ In 43 a -> ~ In 43 t -> ~ In degree_sign t ->
     match r with
     | [] => True
     | c :: _ => c = 43 \/ c = degree_sign
     end ->
     py_float unicode_decimal t = Return v ->
     for_each drive_line [line; a ++ (43 : char) :: t ++ r] st
     = Return {| temps := dict_set d (Some v) (temps st);
                 device_id := Some d |}) /\
  (forall w,
     ~ In 10 line ->
     get_drive_temperatures
       (Completed (header_f0 ++ (10 : char) :: line
                   ++ (10 : char) :: value_41)) w
     = (Return [(lit "f0", Some (float_of_Z 41))], w)).
Proof.
  intros Hm Hlen.
  assert (Hstep : forall st, drive_line st line = Return st)
    by (intros st; apply drive_line_short; assumption).
  assert (Hattr : forall st d value v,
            device_id st = Some d -> d <> [] -> In d (keys (temps st)) ->
            is_value_line value = true -> temp1_value value = Return v ->
            for_each drive_line [line; value] st
            = Return {| temps := dict_set d (Some v) (temps st);
                        device_id := Some d |}).
  { intros st d value v Hd Hne Hin Hv Ht.
    cbn [for_each]; rewrite Hstep; cbn [bind].
    rewrite (drive_line_value_bound st value d Hv Hd), Ht.
    apply dict_mem_keys in Hin; rewrite Hin.
    destruct d; [contradiction | reflexivity]. }
  split; [exact Hstep|]; split; [|split; [exact Hattr|split]].
  - intros stdout stdout' before after w Hs Hs'.
    unfold get_drive_temperatures, try_exceptM, lift.
    cbn [subprocess_run bind]; rewrite Hs, Hs', !for_each_app.
    destruct (for_each drive_line before _) as [s1|]; [|reflexivity].
    cbn [bind for_each]; rewrite Hstep; reflexivity.
  - intros st d a t r v Hd Hne Hin Hv Ha Ht Hdeg Hr Hf.
    apply Hattr; try assumption.
    rewrite (temp1_value_of_shape a t r Ha Ht Hdeg Hr); exact Hf.
  - intros w Hnl.
    assert (Hs : split 10 (header_f0 ++ (10 : char) :: line
                           ++ (10 : char) :: value_41)
                 = [header_f0; line; value_41]).
    { rewrite (split_app_sep 10 header_f0);
        [|intros H; vm_compute in H; intuition discriminate].
      rewrite (split_app_sep 10 line _ Hnl).
      rewrite (split_no_sep 10 value_41);
        [reflexivity | intros H; vm_compute in H; intuition discriminate]. }
    apply (get_drive_temperatures_returns _ w
             {| temps := [(lit "f0", Some (float_of_Z 41))];
                device_id := Some (lit "f0") |}).
    rewrite Hs.
    change [header_f0; line; value_41]
      with ([header_f0] ++ [line; value_41]).
    rewrite for_each_app.
    change (for_each drive_line [header_f0] ?s)
      with (s' <- drive_line s header_f0 ;; Return s').
    rewrite (drive_line_header _ header_f0 (lit "f0") eq_refl); cbn [bind].
    rewrite (Hattr _ (lit "f0") value_41 (float_of_Z 41)).
    + vm_compute; reflexivity.
    + reflexivity.
    + discriminate.
    + left; reflexivity.
    + reflexivity.
    + vm_compute; reflexivity.
Qed.

(* ---------------------------------------------------------------- *)
(** *** The reader of the CPU temperature *)

Lemma get_cpu_temperature_timeout :
  get_cpu_temperature TimedOut = Return None.
Proof. reflexivity. Qed.

(** Text that is empty once stripped, or that [int] refuses, gives
    [None]. *)
Lemma get_cpu_temperature_unparsed (stdout : str) :
  strip stdout = [] \/
  py_int unicode_decimal int_max_str_digits (strip stdout) = Raise ValueError ->
  get_cpu_temperature (Completed stdout) = Return None.
Proof.
  unfold get_cpu_temperature; cbn [subprocess_run bind].
  intros [-> | H]; [reflexivity|].
  destruct (str_truthy (strip stdout)); [rewrite H|]; reflexivity.
Qed.

(** Stripped text that [int] reads as [n] gives [n / 1000.0] when [n] is
    within the range of a [float]. *)
Lemma get_cpu_temperature_millidegrees (stdout : str) (n : Z) (x : float) :
  py_int unicode_decimal int_max_str_digits (strip stdout) = Return n ->
  int_to_float n = Return x ->
  get_cpu_temperature (Completed stdout)
  = Return (Some (SFdiv prec emax x (float_of_Z 1000))).
Proof.
  intros Hi Hx; unfold get_cpu_temperature; cbn [subprocess_run bind].
  destruct (strip stdout) as [|c s] eqn:Es.
  - unfold py_int in Hi; cbn in Hi; discriminate.
  - cbn [str_truthy]; rewrite Hi; cbn [bind].
    unfold int_truediv_float; rewrite Hx; reflexivity.
Qed.

Lemma get_cpu_temperature_45000 :
  get_cpu_temperature (Completed (lit "45000" ++ [10]))
  = Return (Some (float_of_Z 45)).
Proof.
  assert (Hs : strip (lit "45000" ++ [10]) = lit "45000")
    by (vm_compute; reflexivity).
  rewrite (get_cpu_temperature_millidegrees _ 45000 (float_of_Z 45000)).
  - vm_compute; reflexivity.
  - rewrite Hs, py_int_group.
    + vm_compute; reflexivity.
    + repeat constructor.
    + discriminate.
    + vm_compute; lia.
  - vm_compute; reflexivity.
Qed.

(** C5 (the code departs from the claim): when the reader fails because
    the binary is not found, the result is not [None]: the reader of the
    CPU temperature raises [FileNotFoundError]; and a millidegree integer
    beyond the range of a [float] raises [OverflowError]. *)
Theorem cpu_reader_not_found_raises :
  get_cpu_temperature NotFound = Raise FileNotFoundError /\
  get_cpu_temperature (Completed googol4) = Raise OverflowError.
Proof.
  split; [reflexivity|].
  assert (Hi : py_int unicode_decimal int_max_str_digits (strip googol4)
               = Return (10 ^ 400)%Z).
  { unfold py_int.
    replace (sign (lstrip Py_ISSPACE (to_ascii unicode_decimal
                                        (strip googol4))))
      with (false, googol4) by (vm_compute; reflexivity).
    replace (digitpart googol4)
      with (Some (1 :: repeat 0 400%nat, @nil char))
      by (vm_compute; reflexivity).
    cbn [lstrip].
    assert (Hfew : too_many_digits int_max_str_digits
                     (length (1 :: repeat 0 400%nat)) = false).
    { unfold too_many_digits.
      destruct (int_max_str_digits =? 0); [reflexivity|].
      apply N.ltb_ge.
      apply N.le_trans with 640; [vm_compute; discriminate|].
      apply N.le_max_l. }
    rewrite Hfew; vm_compute; reflexivity. }
  unfold get_cpu_temperature; cbn [subprocess_run bind].
  replace (str_truthy (strip googol4)) with true by (vm_compute; reflexivity).
  rewrite Hi; vm_compute; reflexivity.
Qed.

(* ---------------------------------------------------------------- *)
(** *** The reader of the fans *)

(** C9: whatever the tool does, the reader of the fans returns [None] or
    a mapping that is not empty and whose keys are among FAN1, FAN2, FAN3,
    FAN4, FANA and FANB; it never returns the empty mapping. *)
Theorem fan_status_none_or_recognised (run : run_outcome) :
  exists res,
    get_fan_status run = Return res /\
    match res with
    | None => True
    | Some fans =>
        fans <> [] /\ forall k, In k (keys fans) -> In k fan_names
    end.
Proof.
  destruct run as [stdout| |]; [|exists None; split; [reflexivity|exact I]..].
  destruct (fan_lines_loop (split 10 stdout) []) as [fans [E [Hsub _]]].
  unfold get_fan_status; cbn [subprocess_run bind]; rewrite E; cbn [bind].
  destruct fans as [|kv fans]; cbn [dict_truthy try_except].
  - exists None; split; [reflexivity | exact I].
  - exists (Some (kv :: fans)); split; [reflexivity|].
    split; [discriminate|].
    intros k Hk; destruct (Hsub k Hk) as [[]|H]; exact H.
Qed.

(** C3 as amended: the reader of the fans returns [None] exactly when the
    tool failed or timed out, or ran and no line matched a recognised
    channel; it never returns the empty mapping. *)
Theorem fans_none_iff_failed_or_unmatched (run : run_outcome) :
  (get_fan_status run = Return None <->
   run_failed run = true \/
   exists stdout,
     run = Completed stdout /\
     forall l n, In l (split 10 stdout) -> In n fan_names ->
                 fan_match n l = false) /\
  get_fan_status run <> Return (Some []).
Proof.
  destruct run as [stdout| |].
  - destruct (fan_scan_empty (split 10 stdout)) as [fans [E Hempty]].
    unfold get_fan_status; cbn [subprocess_run bind run_failed].
    rewrite E; cbn [bind try_except].
    destruct fans as [|kv fans]; cbn [dict_truthy].
    + split; [|discriminate].
      split; [|reflexivity].
      intros _; right; exists stdout; split; [reflexivity|].
      apply Hempty; reflexivity.
    + split; [|intros H; discriminate].
      split; [discriminate|].
      intros [H|[s [Hs Hno]]]; [discriminate|].
      injection Hs as <-.
      apply Hempty in Hno; discriminate.
  - split; [|discriminate].
    split; [left; reflexivity | reflexivity].
  - split; [|discriminate].
    split; [left; reflexivity | reflexivity].
Qed.

(** C8: when the last line of the dump that names a recognised channel
    and holds a run of three digits is [l], the channel maps to the number
    read from [l], and that number is the first run of three to five
    consecutive digits of [l]. *)
Theorem last_matching_line_wins (stdout : str) (before after : list str)
    (l k g : str) :
  In k fan_names ->
  split 10 stdout = before ++ l :: after ->
  contains k l = true ->
  re_search_digits unicode_decimal l = Some g ->
  (forall l', In l' after -> fan_match k l' = false) ->
  exists fans,
    get_fan_status (Completed stdout) = Return (Some fans) /\
    dict_get k fans = Some (group_value g) /\
    py_int unicode_decimal int_max_str_digits g = Return (group_value g) /\
    first_digit_run l g.
Proof.
  intros Hk Hs Hc Hg Hafter.
  assert (Hm : fan_match k l = true)
    by (unfold fan_match; rewrite Hc, Hg; reflexivity).
  destruct (fan_scan_last_match before after l k Hk Hm Hafter)
    as [fans [E G]].
  exists fans.
  unfold get_fan_status; cbn [subprocess_run bind].
  rewrite Hs, E; cbn [bind try_except].
  unfold line_rpm in G; rewrite Hg in G.
  destruct fans as [|kv fans]; [discriminate|].
  repeat split; auto.
  - apply (re_search_digits_int l); exact Hg.
  - apply re_search_digits_run; exact Hg.
Qed.

(* ---------------------------------------------------------------- *)
(** *** [log_status] *)

(** C1 (the code departs from the claim): [log_status] raises
    [UnboundLocalError] when the drive dump has a line with [temp1:]
    before the first drive header, here the block of an ACPI thermal zone,
    whatever follows the block and whatever the other two sources and the
    log file do. *)
Theorem log_status_raises_on_acpitz_dump (self : TrueNASSensor)
    (t : datetime) (rest : str) (cpu fan : run_outcome)
    (a : append_outcome) (w : world) :
  log_status self
    {| now := t; sensors_u := Completed (acpitz_dump ++ rest);
       thermal_zone := cpu; ipmitool_sdr := fan; log_append := a |} w
  = (Raise UnboundLocalError, w).
Proof.
  unfold log_status, read_status, bindM at 1 2; cbn [sensors_u].
  rewrite (get_drive_temperatures_unbound _ _ (acpitz_first_raises rest)).
  reflexivity.
Qed.

(** [log_status] returns a snapshot whenever the drive reader and the CPU
    reader return: with the fan tool having run, timed out or being absent,
    the fan reader and the log file do not make it raise. *)
Lemma log_status_returns (self : TrueNASSensor) (env : poll) (w w1 : world)
    (drive : dict (option float)) (cpu : option float) :
  get_drive_temperatures (sensors_u env) w = (Return drive, w1) ->
  get_cpu_temperature (thermal_zone env) = Return cpu ->
  exists fan w',
    log_status self env w
    = (Return {| timestamp := isoformat (now env); drive_temps := drive;
                 cpu_temp := cpu; fan_status := fan |}, w').
Proof.
  intros Hd Hc.
  assert (Hf : exists fan, get_fan_status (ipmitool_sdr env) = Return fan).
  { destruct (ipmitool_sdr env) as [stdout| |]; [|exists None; reflexivity..].
    destruct (fan_lines_loop (split 10 stdout) []) as [fans [E _]].
    unfold get_fan_status; cbn [subprocess_run bind]; rewrite E.
    eexists; reflexivity. }
  destruct Hf as [fan Hf]; exists fan.
  assert (Hr : read_status env w
               = (Return {| timestamp := isoformat (now env);
                            drive_temps := drive; cpu_temp := cpu;
                            fan_status := fan |}, w1)).
  { unfold read_status, bindM, lift, ret; rewrite Hd, Hc, Hf; reflexivity. }
  destruct (log_status_after_read self env w w1 _ Hr) as [out E].
  eexists; exact E.
Qed.

(** C6 as amended: the date in the name of the log file is the date at
    which the sensor object was constructed; every poll through that
    object, whatever the date of its own time stamp, appends the
    serialised record and a newline to that one file, after what the file
    held, and leaves every other file as it was. *)
Theorem log_file_dated_at_construction (dir : str) (t0 : datetime)
    (self : TrueNASSensor) (env : poll) (w w1 : world) (st : status) :
  __init__ dir t0 None = Return self ->
  read_status env w = (Return st, w1) ->
  log_append env = Appended ->
  log_file self
  = {| parent := dir;
       name := lit "fan_monitor_" ++ strftime_Ymd t0 ++ lit ".log" |} /\
  exists w',
    log_status self env w = (Return st, w') /\
    files w' (log_file self)
    = Some (content w (log_file self) ++ json_dumps st ++ [10]) /\
    forall q, q <> log_file self -> files w' q = files w q.
Proof.
  intros Hi Hr Ha.
  split; [injection Hi as <-; reflexivity|].
  destruct (log_status_after_read self env w w1 st Hr) as [out E].
  rewrite Ha in E.
  eexists; split; [exact E|].
  unfold append_to, content; cbn [files].
  split.
  - rewrite (proj2 (path_eqb_eq _ _) eq_refl); reflexivity.
  - intros q Hq. destruct (path_eqb q (log_file self)) eqn:Eq; [|reflexivity].
    apply path_eqb_eq in Eq; contradiction.
Qed.


(* ---------------------------------------------------------------- *)
(** *** More on the reader of the drive temperatures *)

(** On a dump that is not well formed the loop raises. *)
Lemma drive_scan_raises (lines : list str) :
  forall st, well_formed_from (bound st) lines = false ->
             for_each drive_line lines st = Raise UnboundLocalError.
Proof.
  induction lines as [|l lines IH]; intros st; cbn [for_each well_formed_from].
  - discriminate.
  - destruct (header_id l) as [d|] eqn:Hh.
    + rewrite (drive_line_header st l d Hh); cbn [bind]; intros H.
      apply IH; exact H.
    + destruct (is_value_line l) eqn:Hv.
      * unfold bound at 1.
        destruct (device_id st) as [d|] eqn:Hd.
        -- cbn [andb]; intros H.
           rewrite (drive_line_value_bound st l d Hv Hd); cbn [bind].
           apply IH.
           replace (bound _) with (bound st); [exact H|].
           unfold bound; rewrite Hd.
           destruct (str_truthy d && dict_mem d (temps st)); [|rewrite Hd; auto].
           destruct (temp1_value l); [reflexivity | rewrite Hd; auto].
        -- intros _.
           rewrite (drive_line_value_unbound st l Hv Hd); reflexivity.
      * rewrite (drive_line_other st l Hh Hv); cbn [bind]; apply IH.
Qed.

(** The loop raises nothing but [UnboundLocalError]. *)
Lemma drive_scan_raise_kind (lines : list str) (st : drive_scan) (e : exn) :
  for_each drive_line lines st = Raise e -> e = UnboundLocalError.
Proof.
  destruct (well_formed_from (bound st) lines) eqn:Hw.
  - destruct (drive_scan_returns lines st Hw) as [st' E]; congruence.
  - rewrite (drive_scan_raises lines st Hw); congruence.
Qed.

(** X1: the reader of the drive temperatures raises on exactly the dumps
    that are not well formed, those in which a line with [temp1:] is read
    before any device header; on them it raises [UnboundLocalError] and
    prints nothing, on the others it returns a mapping and prints
    nothing. *)
Theorem drive_reader_raises_iff_ill_formed (stdout : str) (w : world) :
  if well_formed_dump stdout
  then exists temps,
         get_drive_temperatures (Completed stdout) w = (Return temps, w)
  else get_drive_temperatures (Completed stdout) w
       = (Raise UnboundLocalError, w).
Proof.
  destruct (well_formed_dump stdout) eqn:Hw.
  - destruct (drive_scan_returns (split 10 stdout)
                {| temps := []; device_id := None |} Hw) as [st E].
    exists (temps st); apply get_drive_temperatures_returns; exact E.
  - apply get_drive_temperatures_unbound.
    apply (drive_scan_raises (split 10 stdout)
             {| temps := []; device_id := None |} Hw).
Qed.


(** Once a device header has been read, [device_id] is bound. *)
Lemma drive_scan_bound (lines : list str) :
  forall st st',
    for_each drive_line lines st = Return st' ->
    bound st = true \/ (exists h, In h lines /\ header_id h <> None) ->
    bound st' = true.
Proof.
  induction lines as [|l lines IH]; intros st st'; cbn [for_each].
  - intros E; injection E as <-; intros [H|[h [[] _]]]; exact H.
  - destruct (drive_line st l) as [s1|] eqn:E1; [|discriminate].
    cbn [bind]; intros E Hb; apply (IH s1 st' E).
    destruct (header_id l) as [d|] eqn:Hh.
    + rewrite (drive_line_header st l d Hh) in E1; injection E1 as <-.
      left; reflexivity.
    + destruct Hb as [Hb|[h [[<-|Hin] Hne]]].
      * left. unfold bound in Hb |- *.
        destruct (device_id st) as [d|] eqn:Hd; [|discriminate].
        destruct (is_value_line l) eqn:Hv.
        -- rewrite (drive_line_value_bound st l d Hv Hd) in E1.
           injection E1 as <-.
           destruct (str_truthy d && dict_mem d (temps st));
             [|rewrite Hd; reflexivity].
           destruct (temp1_value l); [reflexivity | rewrite Hd; reflexivity].
        -- rewrite (drive_line_other st l Hh Hv) in E1; injection E1 as <-.
           rewrite Hd; reflexivity.
      * contradiction.
      * right; exists h; auto.
Qed.

(** X3: a line with [temp1:] that cannot be read as a temperature (no plus
    sign, or no number after it) is skipped when a device header comes
    before it: the reader gives what it gives on the dump without the line,
    so a temperature read earlier for the device is kept. *)
Theorem unparsable_value_line_is_skipped (stdout stdout' : str)
    (before after : list str) (v : str) (e : exn) (w : world) :
  split 10 stdout = before ++ v :: after ->
  split 10 stdout' = before ++ after ->
  is_value_line v = true ->
  temp1_value v = Raise e ->
  (exists h, In h before /\ header_id h <> None) ->
  get_drive_temperatures (Completed stdout) w
  = get_drive_temperatures (Completed stdout') w.
Proof.
  intros Hs Hs' Hv He Hh.
  unfold get_drive_temperatures, try_exceptM, lift.
  cbn [subprocess_run bind]; rewrite Hs, Hs', !for_each_app.
  destruct (for_each drive_line before _) as [s1|] eqn:E1; [|reflexivity].
  cbn [bind for_each].
  pose proof (drive_scan_bound before _ s1 E1 (or_intror Hh)) as Hb.
  unfold bound in Hb.
  destruct (device_id s1) as [d|] eqn:Hd; [|discriminate].
  rewrite (drive_line_value_bound s1 v d Hv Hd), He.
  destruct (str_truthy d && dict_mem d (temps s1)); reflexivity.
Qed.

(** Lines that establish no device leave the current device and the keys
    as they are. *)
Lemma drive_scan_no_header (lines : list str) :
  forall st st',
    (forall l, In l lines -> header_id l = None) ->
    for_each drive_line lines st = Return st' ->
    device_id st' = device_id st /\ keys (temps st') = keys (temps st).
Proof.
  induction lines as [|l lines IH]; intros st st' Hno; cbn [for_each].
  - intros E; injection E as <-; auto.
  - destruct (drive_line st l) as [s1|] eqn:E1; [|discriminate].
    cbn [bind]; intros E.
    destruct (IH s1 st' (fun l' H => Hno l' (or_intror H)) E) as [H1 H2].
    rewrite H1, H2.
    pose proof (Hno l (or_introl eq_refl)) as Hh.
    destruct (is_value_line l) eqn:Hv.
    + destruct (device_id st) as [d|] eqn:Hd.
      * rewrite (drive_line_value_bound st l d Hv Hd) in E1.
        injection E1 as <-.
        destruct (str_truthy d && dict_mem d (temps st)) eqn:Hc;
          [|rewrite Hd; auto].
        destruct (temp1_value l); [|rewrite Hd; auto].
        cbn [device_id temps]; split; [reflexivity|].
        apply andb_true_iff in Hc as [_ Hc].
        apply keys_dict_set_present, dict_mem_keys; exact Hc.
      * rewrite (drive_line_value_unbound st l Hv Hd) in E1; discriminate.
    + rewrite (drive_line_other st l Hh Hv) in E1; injection E1 as <-; auto.
Qed.

(** A device keeps its value as long as no header names it again and no
    temperature-value line is read while it is the current one. *)
Lemma drive_scan_keeps_value (d : str) (val : option float)
    (lines : list str) :
  forall current st st',
    no_value_for d current lines = true ->
    (forall l, In l lines -> header_id l <> Some d) ->
    for_each drive_line lines st = Return st' ->
    dict_get d (temps st) = Some val ->
    (current = false -> device_id st <> Some d) ->
    dict_get d (temps st') = Some val.
Proof.
  induction lines as [|l lines IH]; intros current st st';
    cbn [for_each no_value_for].
  - intros _ _ E; injection E as <-; auto.
  - intros Hn Hno.
    assert (Hno' : forall l', In l' lines -> header_id l' <> Some d)
      by (intros l' H; apply Hno; right; exact H).
    pose proof (Hno l (or_introl eq_refl)) as Hl.
    destruct (header_id l) as [d'|] eqn:Hh.
    + rewrite (drive_line_header st l d' Hh); cbn [bind].
      intros E Hg _.
      assert (Hne : d' <> d) by congruence.
      apply (IH _ _ _ Hn Hno' E); cbn [temps device_id].
      * rewrite dict_get_set_other; assumption.
      * intros _ H; injection H as ->; contradiction.
    + destruct (is_value_line l) eqn:Hv.
      * apply andb_true_iff in Hn as [Hc Hn].
        apply negb_true_iff in Hc; subst current.
        destruct (device_id st) as [d0|] eqn:Hd.
        -- rewrite (drive_line_value_bound st l d0 Hv Hd); cbn [bind].
           intros E Hg Hcur.
           assert (Hne : d0 <> d) by (intros ->; apply Hcur; reflexivity).
           apply (IH _ _ _ Hn Hno' E).
           ++ destruct (str_truthy d0 && dict_mem d0 (temps st)); [|exact Hg].
              destruct (temp1_value l); [|exact Hg].
              cbn [temps]; rewrite dict_get_set_other; assumption.
           ++ intros _.
              destruct (str_truthy d0 && dict_mem d0 (temps st));
                [|rewrite Hd; congruence].
              destruct (temp1_value l); [cbn [device_id] | rewrite Hd];
                congruence.
        -- rewrite (drive_line_value_unbound st l Hv Hd); discriminate.
      * rewrite (drive_line_other st l Hh Hv); cbn [bind].
        intros E Hg Hcur; apply (IH _ _ _ Hn Hno' E Hg Hcur).
Qed.

(** X4: the last temperature-value line of a device gives its value. When
    the header of a device with a non-empty id is followed, with no other
    header between, by a line read as the temperature [x], and after that
    line no header names the device again and no temperature-value line is
    read while it is current, the device maps to [x], whatever the lines
    between the header and that line held. *)
Theorem last_value_line_wins (stdout : str) (before mid after : list str)
    (h v d : str) (x : float) (w : world) :
  well_formed_dump stdout = true ->
  split 10 stdout = before ++ h :: mid ++ v :: after ->
  header_id h = Some d -> d <> [] ->
  (forall l, In l mid -> header_id l = None) ->
  is_value_line v = true ->
  temp1_value v = Return x ->
  no_value_for d true after = true ->
  (forall l, In l after -> header_id l <> Some d) ->
  exists temps,
    get_drive_temperatures (Completed stdout) w = (Return temps, w) /\
    dict_get d temps = Some (Some x).
Proof.
  intros Hw Hs Hh Hd Hmid Hv Hx Hn Hno.
  destruct (drive_scan_returns (split 10 stdout)
              {| temps := []; device_id := None |} Hw) as [st E].
  exists (temps st); split; [apply get_drive_temperatures_returns; exact E|].
  rewrite Hs, for_each_app in E.
  destruct (for_each drive_line before _) as [s1|]; [|discriminate].
  cbn [bind for_each] in E.
  rewrite (drive_line_header s1 h d Hh) in E; cbn [bind] in E.
  rewrite for_each_app in E.
  destruct (for_each drive_line mid _) as [s2|] eqn:E2; [|discriminate].
  cbn [bind for_each] in E.
  destruct (drive_scan_no_header mid _ s2 Hmid E2) as [Hc Hk].
  cbn [device_id temps] in Hc, Hk.
  rewrite (drive_line_value_bound s2 v d Hv Hc), Hx in E.
  assert (Hin : dict_mem d (temps s2) = true).
  { apply dict_mem_keys; rewrite Hk; apply keys_dict_set; left; reflexivity. }
  rewrite Hin in E.
  destruct d as [|c d]; [contradiction|].
  cbn [str_truthy andb bind] in E.
  apply (drive_scan_keeps_value (c :: d) (Some x) after true _ _ Hn Hno E).
  - apply dict_get_set_same.
  - discriminate.
Qed.

(** The key of the empty text never gets a temperature in the loop. *)
Lemma drive_scan_empty_id (x : float) (lines : list str) :
  forall st st',
    for_each drive_line lines st = Return st' ->
    dict_get [] (temps st) <> Some (Some x) ->
    dict_get [] (temps st') <> Some (Some x).
Proof.
  induction lines as [|l lines IH]; intros st st'; cbn [for_each].
  - intros E; injection E as <-; auto.
  - destruct (drive_line st l) as [s1|] eqn:E1; [|discriminate].
    cbn [bind]; intros E H; apply (IH s1 st' E).
    destruct (header_id l) as [d|] eqn:Hh.
    + rewrite (drive_line_header st l d Hh) in E1; injection E1 as <-.
      cbn [temps]. destruct d as [|c d].
      * rewrite dict_get_set_same; discriminate.
      * rewrite dict_get_set_other; [exact H | discriminate].
    + destruct (is_value_line l) eqn:Hv.
      * destruct (device_id st) as [d|] eqn:Hd.
        -- rewrite (drive_line_value_bound st l d Hv Hd) in E1.
           injection E1 as <-.
           destruct d as [|c d]; [exact H|].
           destruct (str_truthy (c :: d) && dict_mem (c :: d) (temps st));
             [|exact H].
           destruct (temp1_value l); [|exact H].
           cbn [temps]; rewrite dict_get_set_other; [exact H | discriminate].
        -- rewrite (drive_line_value_unbound st l Hv Hd) in E1; discriminate.
      * rewrite (drive_line_other st l Hh Hv) in E1; injection E1 as <-.
        exact H.
Qed.

(** X5: the empty device id, which a header ending in a hyphen
    establishes, never gets a temperature: in what the reader returns the
    key of the empty text is absent or maps to [None]. *)
Theorem empty_device_id_has_no_temperature (stdout : str) (w w' : world)
    (temps : dict (option float)) (x : float) :
  get_drive_temperatures (Completed stdout) w = (Return temps, w') ->
  dict_get [] temps <> Some (Some x).
Proof.
  unfold get_drive_temperatures, try_exceptM, lift.
  cbn [subprocess_run bind].
  destruct (for_each drive_line (split 10 stdout) _) as [st|e] eqn:E;
    cbn [bind].
  - intros H; injection H as <- _.
    apply (drive_scan_empty_id x _ _ _ E); discriminate.
  - rewrite (drive_scan_raise_kind _ _ _ E); discriminate.
Qed.

(** X6: the temperature of a line is the number that stands between the
    first plus sign of the line and the degree sign or plus sign that
    follows it, or the end of the line; a line without a plus sign raises
    [IndexError], which the loop takes as no temperature. *)
Theorem temp1_value_between_plus_and_degree :
  (forall a t r : str,
     ~ In 43 a -> ~ In 43 t -> ~ In degree_sign t ->
     match r with
     | [] => True
     | c :: _ => c = 43 \/ c = degree_sign
     end ->
     temp1_value (a ++ (43 : char) :: t ++ r) = py_float unicode_decimal t) /\
  (forall line : str, ~ In 43 line -> temp1_value line = Raise IndexError).
Proof.
  split.
  - intros a t r Ha Ht Hd Hr.
    unfold temp1_value.
    rewrite (split_app_sep 43 a (t ++ r) Ha).
    destruct r as [|c r].
    + rewrite app_nil_r, (split_no_sep 43 t Ht); cbn [nth_error].
      rewrite (split_no_sep degree_sign t Hd); reflexivity.
    + destruct Hr as [-> | ->].
      * rewrite (split_app_sep 43 t r Ht); cbn [nth_error].
        rewrite (split_no_sep degree_sign t Hd); reflexivity.
      * destruct (split 43 (degree_sign :: r)) as [|p ps] eqn:Es;
          [destruct (split_not_nil _ _ Es)|].
        assert (Hp : exists p', p = degree_sign :: p').
        { cbn [split] in Es.
          replace (degree_sign =? 43) with false in Es by reflexivity.
          destruct (split 43 r) as [|q qs]; injection Es as <- _; eauto. }
        destruct Hp as [p' ->].
        rewrite (split_app_head 43 t _ _ _ Ht Es); cbn [nth_error].
        rewrite (split_app_sep degree_sign t p' Hd); reflexivity.
  - intros line Hn; unfold temp1_value.
    rewrite (split_no_sep 43 line Hn); reflexivity.
Qed.

(* ---------------------------------------------------------------- *)
(** *** More on the reader of the CPU temperature *)

Lemma py_int_raise_kind (s : str) (e : exn) :
  py_int unicode_decimal int_max_str_digits s = Raise e -> e = ValueError.
Proof.
  unfold py_int.
  destruct (sign _) as [neg body].
  destruct (digitpart body) as [[ds r]|]; [|congruence].
  destruct (lstrip Py_ISSPACE r); [|congruence].
  destruct (too_many_digits _ _); congruence.
Qed.

(** X7: once the tool has run and its output has been read, the reader of
    the CPU temperature either returns or raises [OverflowError], and it
    raises only when [int] accepted the text and the integer is too large
    for a float in the division by 1000.0; the [ValueError] of [int] does
    not leave it. *)
Theorem cpu_reader_after_tool_ran (stdout : str) :
  (exists c, get_cpu_temperature (Completed stdout) = Return c) \/
  (get_cpu_temperature (Completed stdout) = Raise OverflowError /\
   exists n,
     py_int unicode_decimal int_max_str_digits (strip stdout) = Return n /\
     int_to_float n = Raise OverflowError).
Proof.
  unfold get_cpu_temperature; cbn [subprocess_run bind].
  destruct (str_truthy (strip stdout)); [|left; eexists; reflexivity].
  destruct (py_int _ _ (strip stdout)) as [n|e] eqn:Ei; cbn [bind].
  - unfold int_truediv_float.
    destruct (int_to_float n) as [x|e] eqn:Ef; cbn [bind try_except].
    + left; eexists; reflexivity.
    + assert (He : e = OverflowError).
      { revert Ef; unfold int_to_float.
        destruct (float_of_Z n); congruence. }
      subst e; right; split; [reflexivity|].
      exists n; split; [reflexivity | exact Ef].
  - rewrite (py_int_raise_kind _ _ Ei); left; eexists; reflexivity.
Qed.

Lemma lstrip_all_space (space : char -> bool) (s : str) :
  Forall (fun c => space c = true) s -> lstrip space s = [].
Proof.
  tidy.
  induction 1 as [|c s Hc Hs IH]; cbn [lstrip]; [reflexivity|].
  rewrite Hc; exact IH.
Qed.

(** X8: when the tool prints nothing, or white space only, the reader of
    the CPU temperature returns [None]. *)
Theorem cpu_reader_blank_is_none (stdout : str) :
  Forall (fun c => Py_UNICODE_ISSPACE c = true) stdout ->
  get_cpu_temperature (Completed stdout) = Return None.
Proof.
  intros H; apply get_cpu_temperature_unparsed; left.
  unfold strip, rstrip; rewrite (lstrip_all_space _ _ H); reflexivity.
Qed.

(** The binary digits of a positive number. *)
Lemma digits2_pos_size (p : positive) : digits2_pos p = Pos.size p.
Proof.
  tidy.
  induction p; cbn [digits2_pos Pos.size]; congruence.
Qed.

Lemma digits2_pos_iter (p : positive) (k : positive) :
  digits2_pos (Pos.iter xO p k) = (digits2_pos p + k)%positive.
Proof.
  tidy.
  induction k as [|k IH] using Pos.peano_ind.
  - cbn; lia.
  - rewrite Pos.iter_succ; cbn [digits2_pos]; rewrite IH; lia.
Qed.

Lemma digits2_pos_small (p : positive) :
  (Zpos p < 2 ^ 53)%Z -> (Zpos (digits2_pos p) <= 53)%Z.
Proof.
  tidy.
  intros H; rewrite digits2_pos_size.
  pose proof (Pos.size_le p) as Hs.
  assert (H2 : (2 ^ Zpos (Pos.size p) <= 2 * Zpos p)%Z).
  { rewrite <- Pos2Z.inj_pow.
    change (2 * Zpos p)%Z with (Zpos p~0); apply Pos2Z.pos_le_pos; exact Hs. }
  destruct (Z.le_gt_cases (Zpos (Pos.size p)) 53) as [Hle|Hgt]; [exact Hle|].
  assert (H3 : (2 ^ 54 <= 2 ^ Zpos (Pos.size p))%Z)
    by (apply Z.pow_le_mono_r; lia).
  change (2 ^ 54)%Z with (2 * 2 ^ 53)%Z in H3; lia.
Qed.

(** A number of at most 53 binary digits is rounded to a finite [float]. *)
Lemma binary_round_small (s : bool) (p : positive) :
  (Zpos (digits2_pos p) <= 53)%Z ->
  exists m e, binary_round prec emax s p 0 = S754_finite s m e.
Proof.
  tidy.
  intros Hd. set (d := digits2_pos p) in *.
  assert (Hfexp : forall x, (1 <= x <= 53)%Z ->
                            fexp prec emax x = (x - 53)%Z).
  { intros x Hx; unfold fexp, emin, prec, emax; lia. }
  assert (Haux : forall mz, digits2_pos mz = 53%positive ->
            binary_round_aux prec emax s (Zpos mz) (Zpos d - 53) loc_Exact
            = S754_finite s mz (Zpos d - 53)).
  { intros mz Hmz. unfold binary_round_aux, shr_fexp.
    cbn [Zdigits2 shr_record_of_loc]. rewrite Hmz.
    replace (53 + (Zpos d - 53))%Z with (Zpos d) by lia.
    rewrite (Hfexp (Zpos d)) by lia.
    rewrite Z.sub_diag. cbn [shr shr_m loc_of_shr_record round_nearest_even].
    cbn [Zdigits2 shr_record_of_loc]. rewrite Hmz.
    replace (53 + (Zpos d - 53))%Z with (Zpos d) by lia.
    rewrite (Hfexp (Zpos d)) by lia.
    rewrite Z.sub_diag. cbn [shr shr_m].
    replace (Zpos d - 53 <=? emax - prec)%Z with true; [reflexivity|].
    symmetry; apply Z.leb_le; unfold emax, prec; lia. }
  unfold binary_round. fold d.
  rewrite Z.add_0_r, (Hfexp (Zpos d)) by lia.
  unfold shl_align. rewrite Z.sub_0_r.
  destruct (Zpos d - 53)%Z as [|q|q] eqn:Eq.
  - exists p, 0%Z. apply Haux. unfold d in *; lia.
  - lia.
  - eexists _, _; apply Haux.
    rewrite digits2_pos_iter. fold d. lia.
Qed.

(** [PyLong_AsDouble] does not overflow below [2^53]. *)
Lemma int_to_float_small (n : Z) :
  (Z.abs n < 2 ^ 53)%Z -> int_to_float n = Return (float_of_Z n).
Proof.
  tidy.
  intros H; unfold int_to_float, float_of_Z, binary_normalize.
  destruct n as [|p|p]; [reflexivity| |].
  - destruct (binary_round_small false p) as [m [e E]];
      [apply digits2_pos_small; exact H | rewrite E; reflexivity].
  - destruct (binary_round_small true p) as [m [e E]];
      [apply digits2_pos_small; exact H | rewrite E; reflexivity].
Qed.

Lemma digits_value_bound (ds : list N) :
  Forall (fun d => d < 10) ds ->
  forall a, fold_left (fun a d => 10 * a + d) ds a
            < (a + 1) * 10 ^ N.of_nat (length ds).
Proof.
  tidy.
  induction 1 as [|d ds Hd Hds IH]; intros a; cbn [fold_left length].
  - cbn; lia.
  - rewrite Nat2N.inj_succ, N.pow_succ_r'.
    specialize (IH (10 * a + d)). nia.
Qed.

Lemma decimal_value_bound (c : char) : decimal_value c < 10.
Proof.
  unfold decimal_value, Py_UNICODE_TODECIMAL.
  destruct (is_ascii_digit c) eqn:Ha.
  - unfold is_ascii_digit in Ha; apply andb_true_iff in Ha as [H1 H2].
    apply N.leb_le in H1; apply N.leb_le in H2; lia.
  - destruct ((c <? 128) || Py_UNICODE_ISSPACE c); [lia|].
    destruct (unicode_decimal c) as [d|]; [|lia].
    destruct (d <? 10) eqn:E; [apply N.ltb_lt in E; exact E | lia].
Qed.

(** The number of a run of [n] digits is below [10^n]. *)
Lemma group_value_bound (g : str) :
  (0 <= group_value g < 10 ^ Z.of_nat (length g))%Z.
Proof.
  unfold group_value, digits_value.
  assert (H : Forall (fun d => d < 10) (map decimal_value g)).
  { apply Forall_forall; intros d Hd; apply in_map_iff in Hd as [c [<- _]].
    apply decimal_value_bound. }
  pose proof (digits_value_bound _ H 0) as Hb.
  rewrite length_map in Hb. cbn [N.add] in Hb. rewrite N.mul_1_l in Hb.
  split; [lia|].
  apply N2Z.inj_lt in Hb. rewrite N2Z.inj_pow, nat_N_Z in Hb. exact Hb.
Qed.

Lemma ascii_digit_decimal (c : char) :
  is_ascii_digit c = true ->
  is_decimal unicode_decimal c = true /\ Py_UNICODE_ISSPACE c = false.
Proof.
  intros H; unfold is_decimal, Py_UNICODE_TODECIMAL; rewrite H.
  split; [reflexivity|].
  unfold is_ascii_digit in H; apply andb_true_iff in H as [H1 H2].
  apply N.leb_le in H1; apply N.leb_le in H2.
  unfold Py_UNICODE_ISSPACE.
  repeat match goal with
         | |- _ || _ = false => apply orb_false_iff; split
         | |- _ && _ = false => apply andb_false_iff
         end;
    try (apply N.eqb_neq; lia);
    try (right; apply N.leb_gt; lia); try (left; apply N.leb_gt; lia).
Qed.

(** The line of digits that the thermal zone gives, stripped. *)
Lemma strip_digits_newline (digits : str) :
  digits <> [] -> Forall (fun c => is_ascii_digit c = true) digits ->
  strip (digits ++ [10]) = digits.
Proof.
  tidy.
  intros Hne Hd. unfold strip, rstrip.
  assert (Hns : forall c, In c digits -> Py_UNICODE_ISSPACE c = false).
  { intros c Hc. rewrite Forall_forall in Hd.
    unfold is_ascii_digit in Hd. specialize (Hd c Hc).
    apply andb_true_iff in Hd as [H1 H2].
    apply N.leb_le in H1; apply N.leb_le in H2.
    unfold Py_UNICODE_ISSPACE.
    repeat match goal with
           | |- _ || _ = false => apply orb_false_iff; split
           | |- _ && _ = false => apply andb_false_iff
           end;
      try (apply N.eqb_neq; lia);
      try (right; apply N.leb_gt; lia); try (left; apply N.leb_gt; lia). }
  destruct digits as [|c digits]; [contradiction|].
  cbn [app lstrip]. rewrite (Hns c (or_introl eq_refl)).
  change (c :: digits ++ [10]) with ((c :: digits) ++ [10]).
  rewrite rev_app_distr. cbn [rev app lstrip].
  replace (Py_UNICODE_ISSPACE 10) with true by reflexivity.
  destruct (rev digits ++ [c]) as [|x xs] eqn:Er.
  - destruct (rev digits); discriminate.
  - assert (Hx : In x (c :: digits)).
    { apply in_rev; cbn [rev]; rewrite Er; left; reflexivity. }
    cbn [lstrip]; rewrite (Hns x Hx), <- Er.
    rewrite rev_app_distr, rev_involutive; reflexivity.
Qed.

(** X9: when the thermal zone gives a line of one to fifteen ASCII digits
    ended by a newline, the reader of the CPU temperature returns the
    [float] nearest to the number, divided by [1000.0]; the conversion
    cannot overflow. *)
Theorem cpu_reader_millidegrees_line (digits : str) :
  digits <> [] ->
  Forall (fun c => is_ascii_digit c = true) digits ->
  (length digits <= 15)%nat ->
  get_cpu_temperature (Completed (digits ++ [10]))
  = Return (Some (SFdiv prec emax (float_of_Z (group_value digits))
                    (float_of_Z 1000))).
Proof.
  intros Hne Hd Hlen.
  apply get_cpu_temperature_millidegrees with (n := group_value digits).
  - rewrite (strip_digits_newline digits Hne Hd).
    apply py_int_group; [|exact Hne | lia].
    apply Forall_forall; intros c Hc.
    rewrite Forall_forall in Hd; apply ascii_digit_decimal, Hd, Hc.
  - apply int_to_float_small.
    pose proof (group_value_bound digits) as [H0 H1].
    rewrite Z.abs_eq by exact H0.
    apply Z.lt_le_trans with (10 ^ 15)%Z; [|vm_compute; discriminate].
    apply Z.lt_le_trans with (1 := H1).
    apply Z.pow_le_mono_r; lia.
Qed.

(* ---------------------------------------------------------------- *)
(** *** More on the reader of the fans *)

Lemma line_rpm_range (line : str) : (0 <= line_rpm line <= 99999)%Z.
Proof.
  unfold line_rpm.
  destruct (re_search_digits unicode_decimal line) as [g|] eqn:E; [|lia].
  destruct (re_search_digits_run line g E) as [b [a [_ [_ [Hl _]]]]].
  pose proof (group_value_bound g) as [H0 H1].
  split; [exact H0|].
  assert (H5 : (10 ^ Z.of_nat (length g) <= 10 ^ 5)%Z)
    by (apply Z.pow_le_mono_r; lia).
  change (10 ^ 5)%Z with 100000%Z in H5; lia.
Qed.

(** The loops keep every value of the mapping within five digits. *)
Lemma fan_scan_range (lines : list str) :
  forall fans fans',
    for_each fan_line lines fans = Return fans' ->
    (forall k v, dict_get k fans = Some v -> (0 <= v <= 99999)%Z) ->
    forall k v, dict_get k fans' = Some v -> (0 <= v <= 99999)%Z.
Proof.
  induction lines as [|l lines IH]; intros fans fans'; cbn [for_each].
  - intros E; injection E as <-; auto.
  - unfold fan_line at 1.
    destruct (fan_names_loop l fan_names fans) as [f1 [E1 [_ [_ [Hg _]]]]].
    rewrite E1; cbn [bind]; intros E H.
    apply (IH f1 fans' E).
    intros k v; rewrite Hg.
    destruct (existsb (str_eqb k) fan_names && fan_match k l).
    + intros Hv; injection Hv as <-; apply line_rpm_range.
    + apply H.
Qed.

(** X10: every value in the mapping that the reader of the fans returns is
    an integer from 0 to 99999. *)
Theorem fan_rpm_range (run : run_outcome) (fans : dict Z) (k : str) (v : Z) :
  get_fan_status run = Return (Some fans) ->
  dict_get k fans = Some v ->
  (0 <= v <= 99999)%Z.
Proof.
  destruct run as [stdout| |]; [|discriminate..].
  unfold get_fan_status; cbn [subprocess_run bind].
  destruct (for_each fan_line (split 10 stdout) []) as [f|e] eqn:E;
    cbn [bind try_except]; [|destruct e as [|[]| | | |]; discriminate].
  destruct (dict_truthy f); [|discriminate].
  intros H; injection H as <-.
  apply (fan_scan_range _ _ _ E); discriminate.
Qed.

(** X11: a channel is a key of the mapping that the reader of the fans
    returns exactly when it is one of the six recognised names and some
    line of the dump holds the name and a run of three digits. *)
Theorem fan_channel_present_iff_matched (stdout k : str) :
  (exists fans v, get_fan_status (Completed stdout) = Return (Some fans) /\
                  dict_get k fans = Some v) <->
  (In k fan_names /\
   exists l, In l (split 10 stdout) /\ fan_match k l = true).
Proof.
  destruct (fan_lines_loop (split 10 stdout) [])
    as [f [E [Hsub [_ [Hkeep _]]]]].
  assert (Hres : get_fan_status (Completed stdout)
                 = Return (if dict_truthy f then Some f else None)).
  { unfold get_fan_status; cbn [subprocess_run bind]; rewrite E; reflexivity. }
  rewrite Hres; split.
  - intros [fans [v [Hf Hv]]].
    destruct (dict_truthy f); [|discriminate]; injection Hf as <-.
    assert (Hin : In k (keys f)) by (apply dict_get_keys; congruence).
    split; [destruct (Hsub k Hin) as [[]|H]; exact H|].
    destruct (existsb (fan_match k) (split 10 stdout)) eqn:Ex.
    + apply existsb_exists in Ex; exact Ex.
    + rewrite Hkeep in Hv; [discriminate|].
      intros l Hl. destruct (fan_match k l) eqn:Hm; [|reflexivity].
      assert (Ht : existsb (fan_match k) (split 10 stdout) = true)
        by (apply existsb_exists; exists l; auto).
      congruence.
  - intros [Hk [l [Hl Hm]]].
    apply in_split in Hl as [before [after Hs]].
    rewrite Hs, for_each_app in E.
    destruct (fan_lines_loop before []) as [f1 [E1 _]]; rewrite E1 in E.
    cbn [bind for_each] in E.
    destruct (fan_line_sets l f1 k Hk Hm) as [f2 [E2 G2]]; rewrite E2 in E.
    cbn [bind] in E.
    destruct (fan_lines_loop after f2) as [f3 [E3 [_ [Hmono _]]]].
    rewrite E3 in E; injection E as ->.
    assert (Hin : In k (keys f)).
    { apply Hmono, dict_get_keys; congruence. }
    destruct (dict_get k f) as [v|] eqn:Hv;
      [|apply dict_get_keys in Hin; contradiction].
    exists f, v; split; [|exact Hv].
    destruct f; [destruct Hin | reflexivity].
Qed.

(* ---------------------------------------------------------------- *)
(** *** More on [log_status] *)

(** [log_status] returns only after the readers have returned. *)
Lemma log_status_read (self : TrueNASSensor) (env : poll) (w : world) :
  match read_status env w with
  | (Return st, w1) =>
      exists w', log_status self env w = (Return st, w')
  | (Raise e, w1) => log_status self env w = (Raise e, w1)
  end.
Proof.
  destruct (read_status env w) as [[st|e] w1] eqn:Hr.
  - destruct (log_status_after_read self env w w1 st Hr) as [out E].
    eexists; exact E.
  - unfold log_status, bindM at 1; rewrite Hr; reflexivity.
Qed.


(** What a poll that returns and whose append succeeds leaves in the log
    file. *)
Lemma log_status_appended (self : TrueNASSensor) (env : poll) (w w' : world)
    (st : status) :
  log_status self env w = (Return st, w') ->
  log_append env = Appended ->
  content w' (log_file self)
  = content w (log_file self) ++ json_dumps st ++ [10].
Proof.
  intros E Ha.
  pose proof (log_status_read self env w) as H.
  destruct (read_status env w) as [[st0|e] w1] eqn:Hr.
  - destruct (log_status_after_read self env w w1 st0 Hr) as [out E0].
    rewrite E0, Ha in E; injection E as <- <-.
    unfold append_to, content at 1; cbn [files].
    rewrite (proj2 (path_eqb_eq _ _) eq_refl); reflexivity.
  - rewrite H in E; discriminate.
Qed.

(** X13: two polls through one sensor object, each of which returns and
    appends, leave in the log file what it held, then the record of the
    first poll and a newline, then the record of the second and a
    newline. *)
Theorem two_polls_append_in_order (self : TrueNASSensor) (env1 env2 : poll)
    (w w1 w2 : world) (st1 st2 : status) :
  log_status self env1 w = (Return st1, w1) ->
  log_append env1 = Appended ->
  log_status self env2 w1 = (Return st2, w2) ->
  log_append env2 = Appended ->
  content w2 (log_file self)
  = content w (log_file self)
    ++ (json_dumps st1 ++ [10]) ++ (json_dumps st2 ++ [10]).
Proof.
  intros E1 A1 E2 A2.
  rewrite (log_status_appended self env2 w1 w2 st2 E2 A2).
  rewrite (log_status_appended self env1 w w1 st1 E1 A1).
  rewrite <- !app_assoc; reflexivity.
Qed.

Lemma get_cpu_temperature_raise_kind (run : run_outcome) (e : exn) :
  get_cpu_temperature run = Raise e ->
  e = FileNotFoundError \/ e = OverflowError.
Proof.
  destruct run as [stdout| |]; [|discriminate | intros H; injection H; auto].
  unfold get_cpu_temperature; cbn [subprocess_run bind].
  destruct (str_truthy (strip stdout)); [|discriminate].
  destruct (py_int _ _ (strip stdout)) as [n|e0] eqn:Ei; cbn [bind].
  - unfold int_truediv_float, int_to_float.
    destruct (float_of_Z n); cbn [bind try_except];
      solve [discriminate | intros H; injection H; auto].
  - rewrite (py_int_raise_kind _ _ Ei); discriminate.
Qed.

Lemma get_drive_temperatures_raise_kind (run : run_outcome) (w w' : world)
    (e : exn) :
  get_drive_temperatures run w = (Raise e, w') -> e = UnboundLocalError.
Proof.
  destruct run as [stdout| |]; [|discriminate..].
  unfold get_drive_temperatures, try_exceptM, lift.
  cbn [subprocess_run bind].
  destruct (for_each drive_line (split 10 stdout) _) as [st|e0] eqn:E;
    cbn [bind]; [discriminate|].
  rewrite (drive_scan_raise_kind _ _ _ E).
  intros H; injection H; auto.
Qed.

Lemma log_status_drive_raises (self : TrueNASSensor) (env : poll)
    (w w1 : world) (e : exn) :
  get_drive_temperatures (sensors_u env) w = (Raise e, w1) ->
  log_status self env w = (Raise e, w1).
Proof.
  intros Hd; unfold log_status, read_status, bindM.
  rewrite Hd; reflexivity.
Qed.

Lemma log_status_cpu_raises (self : TrueNASSensor) (env : poll)
    (w w1 : world) (drive : dict (option float)) (e : exn) :
  get_drive_temperatures (sensors_u env) w = (Return drive, w1) ->
  get_cpu_temperature (thermal_zone env) = Raise e ->
  log_status self env w = (Raise e, w1).
Proof.
  intros Hd Hc; unfold log_status, read_status, bindM, lift.
  rewrite Hd, Hc; reflexivity.
Qed.

(** When [log_status] raises, no file has changed. *)
Lemma log_status_raise_files (self : TrueNASSensor) (env : poll)
    (w w' : world) (e : exn) :
  log_status self env w = (Raise e, w') -> files w' = files w.
Proof.
  intros E.
  pose proof (log_status_read self env w) as H.
  destruct (read_status env w) as [[st|e0] w1] eqn:Hr.
  - destruct H as [w0 H]; rewrite H in E; discriminate.
  - rewrite H in E; injection E as _ <-.
    apply (read_status_files _ _ _ _ Hr).
Qed.

(** X14: an exception of the reader of the drive temperatures, or of the
    reader of the CPU temperature after the first has returned, leaves
    [log_status] as it is: [log_status] raises the same exception, has
    printed nothing beyond what the reader of the drive temperatures
    printed, and has changed no file, whatever the fan tool would have
    printed and whether or not the log file can be written. *)
Theorem log_status_reader_exception_leaves (self : TrueNASSensor)
    (env : poll) (w : world) (e : exn) :
  fst (get_drive_temperatures (sensors_u env) w) = Raise e \/
  ((exists drive,
      fst (get_drive_temperatures (sensors_u env) w) = Return drive) /\
   get_cpu_temperature (thermal_zone env) = Raise e) ->
  log_status self env w
  = (Raise e, snd (get_drive_temperatures (sensors_u env) w)) /\
  files (snd (log_status self env w)) = files w.
Proof.
  intros H.
  assert (E : log_status self env w
              = (Raise e, snd (get_drive_temperatures (sensors_u env) w))).
  { destruct (get_drive_temperatures (sensors_u env) w) as [r w1] eqn:Hd.
    cbn [fst snd] in *.
    destruct H as [-> | [[drive ->] Hc]].
    - apply (log_status_drive_raises self env w w1 e Hd).
    - apply (log_status_cpu_raises self env w w1 drive e Hd Hc). }
  split; [exact E|].
  apply (log_status_raise_files self env w _ e).
  rewrite E; reflexivity.
Qed.

(* ---------------------------------------------------------------- *)
(** *** The order of the printed lines *)

Lemma str_ltb_irrefl (a : str) : str_ltb a a = false.
Proof.
  tidy.
  induction a as [|x a IH]; cbn [str_ltb]; [reflexivity|].
  rewrite N.ltb_irrefl, N.eqb_refl, IH; reflexivity.
Qed.

Lemma str_ltb_trans (a b c : str) :
  str_ltb a b = true -> str_ltb b c = true -> str_ltb a c = true.
Proof.
  tidy.
  revert b c; induction a as [|x a IH]; intros [|y b] [|z c];
    cbn [str_ltb]; try discriminate; try reflexivity.
  rewrite !orb_true_iff, !andb_true_iff, !N.ltb_lt, !N.eqb_eq.
  intros [H1|[H1 H2]] [H3|[H3 H4]].
  - left; lia.
  - left; lia.
  - left; lia.
  - right; split; [lia | apply (IH b c); assumption].
Qed.

Lemma str_ltb_trichotomy (a b : str) :
  str_ltb a b = true \/ a = b \/ str_ltb b a = true.
Proof.
  tidy.
  revert b; induction a as [|x a IH]; intros [|y b]; cbn [str_ltb]; auto.
  rewrite !orb_true_iff, !andb_true_iff, !N.ltb_lt, !N.eqb_eq.
  destruct (N.lt_trichotomy x y) as [H|[H|H]]; [auto | | auto].
  subst y; destruct (IH b) as [H|[H|H]]; [auto | subst; auto | auto 6].
Qed.

(** [a <= b]: [b] is not below [a]. *)
Lemma str_le_trans (a b c : str) :
  str_ltb b a = false -> str_ltb c b = false -> str_ltb c a = false.
Proof.
  tidy.
  intros H1 H2; destruct (str_ltb c a) eqn:E; [|reflexivity].
  destruct (str_ltb_trichotomy a b) as [H|[H|H]].
  - rewrite (str_ltb_trans c a b E H) in H2; discriminate.
  - subst; congruence.
  - congruence.
Qed.

Lemma insert_item_perm {V} (x : str * V) (l : list (str * V)) :
  Permutation (insert_item x l) (x :: l).
Proof.
  tidy.
  induction l as [|y l IH]; cbn [insert_item]; [reflexivity|].
  destruct (str_ltb (fst y) (fst x)); [|reflexivity].
  rewrite IH; apply perm_swap.
Qed.

Lemma insert_item_sorted {V} (x : str * V) (l : list (str * V)) :
  StronglySorted (fun a b => str_ltb (fst b) (fst a) = false) l ->
  StronglySorted (fun a b => str_ltb (fst b) (fst a) = false)
    (insert_item x l).
Proof.
  tidy.
  induction 1 as [|y l Hs IH Hy]; cbn [insert_item].
  - constructor; constructor.
  - destruct (str_ltb (fst y) (fst x)) eqn:E.
    + constructor; [exact IH|].
      apply Forall_forall; intros z Hz.
      apply (Permutation_in _ (insert_item_perm x l)) in Hz.
      destruct Hz as [<-|Hz].
      * destruct (str_ltb (fst x) (fst y)) eqn:E'; [|reflexivity].
        pose proof (str_ltb_trans _ _ _ E E') as Hc.
        rewrite str_ltb_irrefl in Hc; discriminate.
      * rewrite Forall_forall in Hy; apply Hy; exact Hz.
    + constructor; [constructor; assumption|].
      constructor; [exact E|].
      apply Forall_forall; intros z Hz.
      rewrite Forall_forall in Hy.
      apply (str_le_trans _ (fst y)); [exact E | apply Hy; exact Hz].
Qed.

(** X15: the pairs over which [log_status] loops when it prints the drives
    and the fans, [sorted(d.items())], are the pairs of the mapping, each
    once, in ascending order of their keys; the order is strict when the
    keys are distinct, as the keys of a mapping are. *)
Theorem sorted_items_sorted_permutation {V} (d : dict V) :
  Permutation (sorted_items d) d /\
  StronglySorted (fun a b => str_ltb (fst b) (fst a) = false)
    (sorted_items d) /\
  (NoDup (keys d) ->
   StronglySorted (fun a b => str_ltb (fst a) (fst b) = true)
     (sorted_items d)).
Proof.
  tidy.
  assert (Hp : Permutation (sorted_items d) d).
  { unfold sorted_items; induction d as [|x d IH]; cbn [fold_right];
      [reflexivity|].
    rewrite insert_item_perm, IH; reflexivity. }
  assert (Hs : StronglySorted (fun a b => str_ltb (fst b) (fst a) = false)
                 (sorted_items d)).
  { clear Hp; unfold sorted_items; induction d as [|x d IH];
      cbn [fold_right]; [constructor|].
    apply insert_item_sorted; exact IH. }
  split; [exact Hp|]; split; [exact Hs|].
  intros Hnd.
  assert (Hnd' : NoDup (map fst (sorted_items d))).
  { apply (Permutation_NoDup (l := map fst d)); [|exact Hnd].
    apply Permutation_map; symmetry; exact Hp. }
  clear Hp Hnd.
  induction Hs as [|x l Hs IH Hx]; [constructor|].
  cbn [map] in Hnd'; inversion Hnd' as [|? ? Hnin Hnd'']; subst.
  constructor; [apply IH; exact Hnd''|].
  rewrite Forall_forall in Hx |- *; intros z Hz.
  destruct (str_ltb_trichotomy (fst x) (fst z)) as [H|[H|H]].
  - exact H.
  - exfalso; apply Hnin; rewrite H; apply in_map; exact Hz.
  - rewrite (Hx z Hz) in H; discriminate.
Qed.

(* ---------------------------------------------------------------- *)
(** *** The name of the log file *)

Lemma digit_inj (a b : N) : a < 10 -> b < 10 -> digit a = digit b -> a = b.
Proof.
  tidy.
  unfold digit; intros Ha Hb H.
  rewrite !N.mod_small in H by assumption; lia.
Qed.

Lemma div10 (k : N) : k = 10 * (k / 10) + k mod 10 /\ k mod 10 < 10.
Proof.
  tidy.
  split; [apply N.div_mod; lia | apply N.mod_lt; lia].
Qed.

Lemma digit_mod (k : N) : digit k = digit (k mod 10).
Proof.
  tidy.
  unfold digit; rewrite N.Div0.mod_mod; reflexivity.
Qed.

Lemma pad2_inj (n m : N) : n < 100 -> m < 100 -> pad2 n = pad2 m -> n = m.
Proof.
  tidy.
  intros Hn Hm H.
  pose proof (f_equal (fun l => nth 0 l 0) H) as H1.
  pose proof (f_equal (fun l => nth 1 l 0) H) as H2.
  unfold pad2 in H1, H2; cbn [nth] in H1, H2.
  destruct (div10 n) as [Hn0 ?], (div10 m) as [Hm0 ?].
  rewrite (digit_mod n), (digit_mod m) in H2.
  apply digit_inj in H2; [|assumption..].
  apply digit_inj in H1;
    [|apply N.Div0.div_lt_upper_bound; lia..].
  lia.
Qed.

Lemma pad4_inj (n m : N) :
  n < 10000 -> m < 10000 -> pad4 n = pad4 m -> n = m.
Proof.
  tidy.
  intros Hn Hm H.
  pose proof (f_equal (fun l => nth 0 l 0) H) as H1.
  pose proof (f_equal (fun l => nth 1 l 0) H) as H2.
  pose proof (f_equal (fun l => nth 2 l 0) H) as H3.
  pose proof (f_equal (fun l => nth 3 l 0) H) as H4.
  unfold pad4 in H1, H2, H3, H4; cbn [nth] in H1, H2, H3, H4.
  assert (E100 : forall k, k / 100 = k / 10 / 10)
    by (intros k; rewrite N.Div0.div_div; reflexivity).
  assert (E1000 : forall k, k / 1000 = k / 10 / 10 / 10)
    by (intros k; rewrite !N.Div0.div_div; reflexivity).
  rewrite !E1000 in H1. rewrite !E100 in H2.
  destruct (div10 n) as [Hn0 ?], (div10 m) as [Hm0 ?].
  destruct (div10 (n / 10)) as [Hn1 ?], (div10 (m / 10)) as [Hm1 ?].
  destruct (div10 (n / 10 / 10)) as [Hn2 ?],
           (div10 (m / 10 / 10)) as [Hm2 ?].
  rewrite (digit_mod n), (digit_mod m) in H4.
  rewrite (digit_mod (n / 10)), (digit_mod (m / 10)) in H3.
  rewrite (digit_mod (n / 10 / 10)), (digit_mod (m / 10 / 10)) in H2.
  apply digit_inj in H4; [|assumption..].
  apply digit_inj in H3; [|assumption..].
  apply digit_inj in H2; [|assumption..].
  apply digit_inj in H1;
    [|rewrite !N.Div0.div_div; apply N.Div0.div_lt_upper_bound; lia..].
  lia.
Qed.

(** X16: one log file per calendar day. Two sensor objects constructed
    with the same directory have the same log file exactly when they were
    constructed on the same date (year, month and day), whatever the time
    of day. *)
Theorem one_log_file_per_day (dir : str) (t1 t2 : datetime)
    (s1 s2 : TrueNASSensor) :
  year t1 < 10000 -> month t1 < 100 -> day t1 < 100 ->
  year t2 < 10000 -> month t2 < 100 -> day t2 < 100 ->
  __init__ dir t1 None = Return s1 ->
  __init__ dir t2 None = Return s2 ->
  (log_file s1 = log_file s2 <->
   year t1 = year t2 /\ month t1 = month t2 /\ day t1 = day t2).
Proof.
  tidy.
  intros Hy1 Hm1 Hd1 Hy2 Hm2 Hd2 E1 E2.
  injection E1 as <-; injection E2 as <-; cbn [log_file].
  split.
  - intros H; apply (f_equal name) in H; cbn [name] in H.
    injection H as Y1 Y2 Y3 Y4 M1 M2 D1 D2.
    repeat split;
      [apply pad4_inj | apply pad2_inj | apply pad2_inj];
      try assumption; unfold pad4, pad2; congruence.
  - intros [Hy [Hm Hd]]; unfold strftime_Ymd; rewrite Hy, Hm, Hd; reflexivity.
Qed.

(* ---------------------------------------------------------------- *)
(** *** [main] *)

Lemma log_status_other_files (self : TrueNASSensor) (env : poll) (w : world)
    (q : path) :
  q <> log_file self -> files (snd (log_status self env w)) q = files w q.
Proof.
  intros Hq.
  pose proof (log_status_read self env w) as H.
  destruct (read_status env w) as [[st|e] w1] eqn:Hr.
  - destruct (log_status_after_read self env w w1 st Hr) as [out E].
    rewrite E; cbn [snd].
    assert (Hother : forall data w0,
              files (append_to (log_file self) data w0) q = files w0 q).
    { intros data w0; unfold append_to; cbn [files].
      destruct (path_eqb q (log_file self)) eqn:Eq; [|reflexivity].
      apply path_eqb_eq in Eq; contradiction. }
    destruct (log_append env); cbn [files]; rewrite ?Hother; reflexivity.
  - rewrite H; cbn [snd]; rewrite (read_status_files _ _ _ _ Hr); reflexivity.
Qed.

(** The snapshot holds what the reader of the fans returned. *)
Lemma log_status_fan (self : TrueNASSensor) (env : poll) (w w' : world)
    (st : status) :
  log_status self env w = (Return st, w') ->
  get_fan_status (ipmitool_sdr env) = Return (fan_status st).
Proof.
  intros E.
  pose proof (log_status_read self env w) as H.
  destruct (read_status env w) as [[st0|e] w1] eqn:Hr.
  - destruct H as [w0 H]; rewrite H in E; injection E as <- _.
    revert Hr; unfold read_status, bindM, lift, ret.
    destruct (get_drive_temperatures (sensors_u env) w) as [[d|] ?];
      [|discriminate].
    destruct (get_cpu_temperature (thermal_zone env)); [|discriminate].
    destruct (get_fan_status (ipmitool_sdr env)); [|discriminate].
    intros Hr; injection Hr as <- _; reflexivity.
  - rewrite H in E; discriminate.
Qed.


(** X18: when [main] returns, it has printed the warning that IPMI fan
    control is not available exactly when the reader of the fans returned
    [None]; it returns 0 in both cases. *)
Theorem main_warns_iff_no_fans (t0 : datetime) (mkdir : option os_error)
    (env : poll) (fs : path -> option str) (n : Z) :
  returned (main t0 mkdir env fs) = Return n ->
  n = 0%Z /\
  (In WarnNotAvailable (screen (main t0 mkdir env fs)) <->
   get_fan_status (ipmitool_sdr env) = Return None).
Proof.
  unfold main.
  destruct mkdir as [k|]; cbn [__init__]; [discriminate|].
  set (monitor := {| log_dir := default_log_dir; log_file := _ |}).
  set (w := {| files := fs; console := [] |}).
  destruct (log_status monitor env w) as [[st|e] w'] eqn:E; [|discriminate].
  pose proof (log_status_fan monitor env w w' st E) as Hf.
  assert (Hpoll : forall c, ~ In WarnNotAvailable
                                ([Banner; LoggingTo (log_file monitor);
                                  PressCtrlC] ++ map FromPoll c)).
  { intros c H; apply in_app_or in H as [H|H].
    - destruct H as [H|[H|[H|[]]]]; discriminate.
    - apply in_map_iff in H as [o [H _]]; discriminate. }
  destruct (fan_status st) as [fans|]; cbn [returned screen];
    intros H; injection H as <-; (split; [reflexivity|]); rewrite Hf.
  - split; [intros H; destruct (Hpoll _ H) | discriminate].
  - split; [reflexivity|]. intros _.
    rewrite app_assoc; apply in_or_app; right; right; left; reflexivity.
Qed.

(** X19: [main] changes no file other than
    [/var/log/fan_control/fan_monitor_<YYYYMMDD>.log], where the date is
    the one at which it constructed the sensor object; when the directory
    cannot be made it changes no file and prints nothing. *)
Theorem main_touches_one_file (t0 : datetime) (mkdir : option os_error)
    (env : poll) (fs : path -> option str) :
  (forall q,
     q <> {| parent := lit "/var/log/fan_control";
             name := lit "fan_monitor_" ++ strftime_Ymd t0 ++ lit ".log" |} ->
     disk (main t0 mkdir env fs) q = fs q) /\
  match mkdir with
  | None => True
  | Some k =>
      main t0 mkdir env fs
      = {| returned := Raise (OSError k); disk := fs; screen := [] |}
  end.
Proof.
  split; [|destruct mkdir; reflexivity].
  intros q Hq; unfold main.
  destruct mkdir as [k|]; cbn [__init__]; [reflexivity|].
  set (monitor := {| log_dir := default_log_dir; log_file := _ |}).
  set (w := {| files := fs; console := [] |}).
  pose proof (log_status_other_files monitor env w q Hq) as H.
  destruct (log_status monitor env w) as [[st|e] w']; cbn [snd] in H.
  - destruct (fan_status st); exact H.
  - exact H.
Qed.

End Sensor.

(* ------------------------------------------------------------------ *)
(** ** The statements at concrete inputs *)

(** The dump of the first scenario is well formed and is read as the
    fourth claim says. *)
Lemma drive_dump_keys_and_values_witness :
  well_formed_dump f0_dump = true /\
  exists temps,
    get_drive_temperatures ascii_digits_only (Completed f0_dump) empty_world
    = (Return temps, empty_world) /\
    NoDup (keys temps) /\
    (forall d, In d (keys temps) <->
               exists h, In h (split 10 f0_dump) /\ header_id h = Some d).
Proof.
  split; [reflexivity|].
  destruct (drive_dump_keys_and_values ascii_digits_only f0_dump empty_world
              eq_refl) as [temps [H1 [H2 [H3 _]]]].
  exists temps; auto.
Defined.

(** The bare marker is a line with two hyphen-delimited parts; between the
    header of f0 and the line of 41.0 degrees it changes nothing, and the
    temperature goes to f0. *)
Lemma short_header_line_keeps_device_witness :
  contains (lit "drivetemp-scsi") (lit "drivetemp-scsi") = true /\
  (length (split 45%N (lit "drivetemp-scsi")) < 3)%nat /\
  get_drive_temperatures ascii_digits_only (Completed short_header_dump)
    empty_world
  = (Return [(lit "f0", Some (float_of_Z 41))], empty_world) /\
  for_each (drive_line ascii_digits_only) [lit "drivetemp-scsi"; value_41]
    {| temps := [(lit "f0", None)]; device_id := Some (lit "f0") |}
  = Return {| temps := [(lit "f0", Some (float_of_Z 41))];
              device_id := Some (lit "f0") |}.
Proof.
  split; [reflexivity|]; split; [vm_compute; lia|].
  destruct (short_header_line_keeps_device ascii_digits_only
              (lit "drivetemp-scsi"))
    as [_ [_ [Hattr [_ Hdump]]]]; [reflexivity | vm_compute; lia |].
  split.
  - apply (Hdump empty_world).
    intros H; vm_compute in H; intuition discriminate.
  - apply (Hattr {| temps := [(lit "f0", None)];
                    device_id := Some (lit "f0") |}
             (lit "f0") value_41 (float_of_Z 41)).
    + reflexivity.
    + discriminate.
    + left; reflexivity.
    + reflexivity.
    + vm_compute; reflexivity.
Defined.

(** FAN1 at 1200 and then at 1500 revolutions is read as 1500. *)
Lemma last_matching_line_wins_witness :
  exists fans,
    get_fan_status ascii_digits_only default_max_str_digits
      (Completed sdr_fan1_twice) = Return (Some fans) /\
    dict_get (lit "FAN1") fans = Some 1500%Z.
Proof.
  destruct (last_matching_line_wins ascii_digits_only default_max_str_digits
              sdr_fan1_twice
              [lit "FAN1             | 1200 RPM          | ok"]
              []
              (lit "FAN1             | 1500 RPM          | ok")
              (lit "FAN1") (lit "1500"))
    as [fans [H1 [H2 _]]].
  - left; reflexivity.
  - reflexivity.
  - reflexivity.
  - reflexivity.
  - intros l' [].
  - exists fans; split; [exact H1 | exact H2].
Defined.

(** The poll of the first of January through the sensor object of the day
    before. *)
Lemma log_file_dated_at_construction_witness :
  __init__ sample_dir new_years_eve None = Return eve_sensor /\
  exists w',
    log_status ascii_digits_only default_max_str_digits timestamp_dumps
      eve_sensor (new_year_poll Appended) empty_world
    = (Return new_year_status, w') /\
    files w' (log_file eve_sensor)
    = Some (content empty_world (log_file eve_sensor)
            ++ timestamp_dumps new_year_status ++ [10]).
Proof.
  split; [reflexivity|].
  destruct (log_file_dated_at_construction ascii_digits_only
              default_max_str_digits timestamp_dumps
              sample_dir new_years_eve eve_sensor (new_year_poll Appended)
              empty_world empty_world new_year_status
              eq_refl eq_refl eq_refl) as [_ [w' [H1 [H2 _]]]].
  exists w'; split; [exact H1 | exact H2].
Defined.


(** Against C3 as stated: the tool ran, no line matched a channel, and the
    reader returned [None], which is not the empty mapping. *)
Lemma fans_none_though_tool_ran :
  run_failed (Completed sdr_without_fans) = false /\
  get_fan_status ascii_digits_only default_max_str_digits
    (Completed sdr_without_fans) = Return None /\
  get_fan_status ascii_digits_only default_max_str_digits
    (Completed sdr_without_fans) <> Return (Some []).
Proof.
  split; [reflexivity|]; split; [vm_compute; reflexivity|].
  vm_compute; discriminate.
Qed.

(** Against C6 as stated: a poll whose time stamp is of the first of January
    2024, through a sensor object constructed on the day before, is appended
    to the file named after the day before; the file named after the date of
    the time stamp is not written. *)
Lemma new_year_poll_goes_to_old_file :
  __init__ sample_dir new_years_eve None = Return eve_sensor /\
  fst (log_status ascii_digits_only default_max_str_digits timestamp_dumps
         eve_sensor (new_year_poll Appended) empty_world)
  = Return new_year_status /\
  firstn 10 (timestamp new_year_status) = lit "2024-01-01" /\
  files (snd (log_status ascii_digits_only default_max_str_digits
                timestamp_dumps eve_sensor (new_year_poll Appended)
                empty_world))
    {| parent := sample_dir; name := lit "fan_monitor_20240101.log" |}
  = None /\
  files (snd (log_status ascii_digits_only default_max_str_digits
                timestamp_dumps eve_sensor (new_year_poll Appended)
                empty_world))
    {| parent := sample_dir; name := lit "fan_monitor_20231231.log" |}
  = Some (lit "2024-01-01T00:00:01" ++ [10]).
Proof.
  repeat split; vm_compute; reflexivity.
Qed.

(* ------------------------------------------------------------------ *)
(** ** Further statements at concrete inputs *)

(** The bare line [temp1:] after the block of a drive changes nothing. *)
Lemma unparsable_value_line_is_skipped_witness :
  get_drive_temperatures ascii_digits_only (Completed drive_then_bare_temp1)
    empty_world
  = get_drive_temperatures ascii_digits_only (Completed drive_only)
      empty_world.
Proof.
  apply (unparsable_value_line_is_skipped ascii_digits_only
           drive_then_bare_temp1 drive_only
           [header_f0; value_41] [] (lit "temp1:") IndexError empty_world).
  - reflexivity.
  - reflexivity.
  - reflexivity.
  - reflexivity.
  - exists header_f0; split; [left; reflexivity | discriminate].
Defined.

(** The temperature of the ACPI chip, printed after the block of the drive,
    becomes the temperature of the drive. *)
Lemma last_value_line_wins_witness :
  exists temps,
    get_drive_temperatures ascii_digits_only (Completed drive_then_acpitz)
      empty_world = (Return temps, empty_world) /\
    dict_get (lit "f0") temps = Some (Some (float_of_decimal false 278 (-1))).
Proof.
  apply (last_value_line_wins ascii_digits_only drive_then_acpitz
           [] [value_41; lit "acpitz-acpi-0"] [] header_f0 value_27_8
           (lit "f0") (float_of_decimal false 278 (-1)) empty_world).
  - reflexivity.
  - reflexivity.
  - reflexivity.
  - discriminate.
  - intros l [<-|[<-|[]]]; reflexivity.
  - reflexivity.
  - vm_compute; reflexivity.
  - reflexivity.
  - intros l [].
Defined.

(** A header that ends in a hyphen gives the key of the empty text, which
    keeps [None] though a temperature follows. *)
Lemma empty_device_id_has_no_temperature_witness :
  get_drive_temperatures ascii_digits_only (Completed header_without_id)
    empty_world = (Return [([], None)], empty_world) /\
  dict_get [] [(@nil char, @None float)] <> Some (Some (float_of_Z 41)).
Proof.
  split; [vm_compute; reflexivity|].
  apply (empty_device_id_has_no_temperature ascii_digits_only
           header_without_id empty_world empty_world).
  vm_compute; reflexivity.
Defined.

(** The line of the first scenario: the number between the plus sign and
    the degree sign. *)
Lemma temp1_value_between_plus_and_degree_witness :
  temp1_value ascii_digits_only
    (lit "temp1:        " ++ (43 : char) :: lit "41.0"
     ++ degree_sign :: lit "C  (low  =  +0.0")
  = py_float ascii_digits_only (lit "41.0").
Proof.
  apply (proj1 (temp1_value_between_plus_and_degree ascii_digits_only)).
  - intros H; vm_compute in H; intuition discriminate.
  - intros H; vm_compute in H; intuition discriminate.
  - intros H; vm_compute in H; intuition discriminate.
  - right; reflexivity.
Defined.

(** A blank and a newline. *)
Lemma cpu_reader_blank_is_none_witness :
  get_cpu_temperature ascii_digits_only default_max_str_digits
    (Completed [32; 10]) = Return None.
Proof.
  apply cpu_reader_blank_is_none.
  repeat constructor.
Defined.

(** The reading of the third scenario. *)
Lemma cpu_reader_millidegrees_line_witness :
  get_cpu_temperature ascii_digits_only default_max_str_digits
    (Completed (lit "45000" ++ [10]))
  = Return (Some (SFdiv prec emax
                    (float_of_Z (group_value ascii_digits_only (lit "45000")))
                    (float_of_Z 1000))).
Proof.
  apply cpu_reader_millidegrees_line.
  - discriminate.
  - repeat constructor.
  - vm_compute; lia.
Defined.

(** FAN1 at 1500 revolutions. *)
Lemma fan_rpm_range_witness : (0 <= 1500 <= 99999)%Z.
Proof.
  apply (fan_rpm_range ascii_digits_only default_max_str_digits
           (Completed sdr_fan1_twice) [(lit "FAN1", 1500%Z)] (lit "FAN1")).
  - vm_compute; reflexivity.
  - reflexivity.
Defined.


(** The same poll twice. *)
Lemma two_polls_append_in_order_witness :
  content
    (snd (log_status ascii_digits_only default_max_str_digits timestamp_dumps
            eve_sensor (new_year_poll Appended)
            (snd (log_status ascii_digits_only default_max_str_digits
                    timestamp_dumps eve_sensor (new_year_poll Appended)
                    empty_world))))
    (log_file eve_sensor)
  = content empty_world (log_file eve_sensor)
    ++ (timestamp_dumps new_year_status ++ [10])
    ++ (timestamp_dumps new_year_status ++ [10]).
Proof.
  apply (two_polls_append_in_order ascii_digits_only default_max_str_digits
           timestamp_dumps eve_sensor
           (new_year_poll Appended) (new_year_poll Appended)
           empty_world
           (snd (log_status ascii_digits_only default_max_str_digits
                   timestamp_dumps eve_sensor (new_year_poll Appended)
                   empty_world))
           _ new_year_status new_year_status).
  - vm_compute; reflexivity.
  - reflexivity.
  - vm_compute; reflexivity.
  - reflexivity.
Defined.

(** Two pairs out of order. *)
Lemma sorted_items_sorted_permutation_witness :
  StronglySorted (fun a b => str_ltb (fst a) (fst b) = true)
    (sorted_items [(lit "f1", 1%Z); (lit "f0", 2%Z)]).
Proof.
  apply (proj2 (proj2 (sorted_items_sorted_permutation
                         [(lit "f1", 1%Z); (lit "f0", 2%Z)]))).
  repeat constructor; intros H; vm_compute in H; intuition discriminate.
Defined.

(** Noon and the last second of the same day give the same file. *)
Lemma one_log_file_per_day_witness :
  log_file eve_sensor = log_file eve_sensor <->
  year new_years_eve = 2023 /\ month new_years_eve = 12 /\
  day new_years_eve = 31.
Proof.
  apply (one_log_file_per_day sample_dir new_years_eve
           {| year := 2023; month := 12; day := 31;
              hour := 12; minute := 0; second := 0; microsecond := 0 |}
           eve_sensor eve_sensor);
    reflexivity.
Defined.

(** A run of [main] in which no tool prints a line. *)
Lemma main_warns_iff_no_fans_witness :
  In WarnNotAvailable
    (screen (main ascii_digits_only default_max_str_digits timestamp_dumps
               new_years_eve None (new_year_poll Appended) (fun _ => None)))
  <-> get_fan_status ascii_digits_only default_max_str_digits
        (ipmitool_sdr (new_year_poll Appended)) = Return None.
Proof.
  apply (main_warns_iff_no_fans ascii_digits_only default_max_str_digits
           timestamp_dumps new_years_eve None (new_year_poll Appended)
           (fun _ => None) 0%Z).
  vm_compute; reflexivity.
Defined.

(** The block of another chip: the exception of the reader of the drive
    temperatures leaves [log_status], and nothing is printed or written. *)
Lemma log_status_reader_exception_leaves_witness :
  log_status ascii_digits_only default_max_str_digits timestamp_dumps
    eve_sensor acpitz_poll empty_world
  = (Raise UnboundLocalError, empty_world).
Proof.
  destruct (log_status_reader_exception_leaves ascii_digits_only
              default_max_str_digits timestamp_dumps eve_sensor acpitz_poll
              empty_world UnboundLocalError) as [E _].
  - left; vm_compute; reflexivity.
  - rewrite E; vm_compute; reflexivity.
Defined.

